(** * Inspector: type registry, inspector variants and window navigation

    A shallow embedding of [direct/src/tkpanels/Inspector.py].

    - Python strings are [string]; integers are [Z]; lists are [list].
    - A call that may raise returns a [result]; a method that mutates
      [self] is a state transformer that keeps the mutated state when the
      call raises (Python does not roll attribute writes back).
    - The interpreter's own primitives ([type], [dir], [getattr], [sorted],
      [len], [in], indexing, [str], [callable], [eval]) are the operations
      of a class [PyRuntime]; every function of the module is written once
      over that class. Module [Demo] instantiates it with a small concrete
      universe of objects used for the examples.
    - The Tk widgets an [InspectorWindow] owns are modelled by the part of
      their contents the module reads back: the window title, the items
      and the selection of the list box, the value text and the command
      text. *)

From Stdlib Require Import ZArith List String Ascii Bool Lia.
From Stdlib Require Import Sorting.Sorted Sorting.Permutation.
Import ListNotations.
Local Open Scope string_scope.
Local Open Scope Z_scope.

(** ** Exceptions and results *)

Inductive exn : Type :=
| AttributeError
| KeyError
| IndexError
| TypeError
| NameError
| SyntaxError
| ZeroDivisionError.

Inductive result (A : Type) : Type :=
| Ok (a : A)
| Raise (e : exn).
Arguments Ok {A} a.
Arguments Raise {A} e.

Definition rbind {A B : Type} (r : result A) (f : A -> result B) : result B :=
  match r with
  | Ok a => f a
  | Raise e => Raise e
  end.

(** ** State transformers that may raise

    [ST S A] is a method on a mutable receiver of type [S]: it returns the
    receiver as the call left it together with the value or the exception. *)

Definition ST (S A : Type) : Type := S -> S * result A.

Definition ret {S A : Type} (a : A) : ST S A := fun s => (s, Ok a).

Definition throw {S A : Type} (e : exn) : ST S A := fun s => (s, Raise e).

Definition bind {S A B : Type} (m : ST S A) (f : A -> ST S B) : ST S B :=
  fun s =>
    match m s with
    | (s', Ok a) => f a s'
    | (s', Raise e) => (s', Raise e)
    end.

Definition get {S : Type} : ST S S := fun s => (s, Ok s).

Definition modify {S : Type} (f : S -> S) : ST S unit := fun s => (f s, Ok tt).

Definition lift {S A : Type} (r : result A) : ST S A := fun s => (s, r).

Declare Scope st_scope.
Delimit Scope st_scope with st.
Notation "x <- m ;; k" := (bind m (fun x => k))
  (at level 61, m at next level, right associativity) : st_scope.
Notation "m ;;; k" := (bind m (fun _ => k))
  (at level 61, right associativity) : st_scope.

(** ** Strings *)

Definition is_lower (c : ascii) : bool :=
  (97 <=? nat_of_ascii c)%nat && (nat_of_ascii c <=? 122)%nat.

Definition is_upper (c : ascii) : bool :=
  (65 <=? nat_of_ascii c)%nat && (nat_of_ascii c <=? 90)%nat.

Definition upper_ascii (c : ascii) : ascii :=
  if is_lower c then ascii_of_nat (nat_of_ascii c - 32) else c.

Definition lower_ascii (c : ascii) : ascii :=
  if is_upper c then ascii_of_nat (nat_of_ascii c + 32) else c.

Fixpoint lower (s : string) : string :=
  match s with
  | EmptyString => EmptyString
  | String c s' => String (lower_ascii c) (lower s')
  end.

(** [str.capitalize()]: the first character upper-cased and every other
    character lower-cased (on ASCII letters; other characters are kept). *)
Definition capitalize (s : string) : string :=
  match s with
  | EmptyString => EmptyString
  | String c s' => String (upper_ascii c) (lower s')
  end.

(** [sorted] on a list of [str]: ascending in code-point order. *)
Fixpoint insert_str (x : string) (l : list string) : list string :=
  match l with
  | [] => [x]
  | y :: l' => if String.leb x y then x :: l else y :: insert_str x l'
  end.

Fixpoint sort_str (l : list string) : list string :=
  match l with
  | [] => []
  | x :: l' => insert_str x (sort_str l')
  end.

Definition str_le (a b : string) : Prop := String.leb a b = true.

(** [str] of an [int]: decimal digits, with a minus sign when negative. *)
Fixpoint digits (fuel : nat) (n : N) (acc : string) : string :=
  match fuel with
  | O => acc
  | S fuel' =>
      let d := String (ascii_of_N (48 + N.modulo n 10)) acc in
      if (n <? 10)%N then d else digits fuel' (N.div n 10) d
  end.

Definition str_of_int (z : Z) : string :=
  match z with
  | Z0 => "0"
  | Zpos p => digits (S (N.to_nat (N.log2 (Npos p)))) (Npos p) EmptyString
  | Zneg p => "-" ++ digits (S (N.to_nat (N.log2 (Npos p)))) (Npos p) EmptyString
  end.

(** Python list indexing [l[i]]: negative indices count from the end,
    anything outside [-len, len) raises [IndexError]. *)
Definition py_index {A : Type} (l : list A) (i : Z) : result A :=
  let n := Z.of_nat (List.length l) in
  let j := if i <? 0 then n + i else i in
  if (0 <=? j) && (j <? n) then
    match nth_error l (Z.to_nat j) with
    | Some a => Ok a
    | None => Raise IndexError
    end
  else Raise IndexError.

(** [range(n)] as a list of integers. *)
Definition py_range (n : nat) : list Z := map Z.of_nat (seq 0 n).

(** [d[k]] on an insertion-ordered association list with string keys. *)
Fixpoint assoc {A : Type} (k : string) (d : list (string * A)) : option A :=
  match d with
  | [] => None
  | (k', v) :: d' => if String.eqb k k' then Some v else assoc k d'
  end.

(** [dict.__setitem__] on an insertion-ordered association list: an
    existing key keeps its position, a new one is appended. *)
Fixpoint dict_set {A : Type} (k : string) (v : A) (d : list (string * A))
  : list (string * A) :=
  match d with
  | [] => [(k, v)]
  | (k', v') :: d' =>
      if String.eqb k k' then (k, v) :: d' else (k', v') :: dict_set k v d'
  end.

(** ** The interpreter

    What the module asks of the Python runtime. Objects are opaque; the
    operations are the built-ins the module calls on them, taken as pure
    functions of the object (inspection does not mutate what it inspects).
    [dir] may raise and may list objects that are no names, as a class
    that defines [__dir__] can make it; [str] and [repr] of the objects
    inspected are taken not to raise. [of_str] and [of_int] inject Python
    [str] and [int] values, which is what the parts list holds next to
    dictionary keys. *)

Class PyRuntime : Type := {
  pyobj : Type;
  (** [type(o).__name__] *)
  type_name : pyobj -> string;
  (** [dir(o)]: the listing, or the exception [__dir__] raised *)
  py_dir : pyobj -> result (list pyobj);
  (** [getattr(o, name)] *)
  py_getattr : pyobj -> pyobj -> result pyobj;
  (** [list(o.keys())] *)
  py_keys : pyobj -> result (list pyobj);
  (** the values iterating over [o] yields *)
  py_iter : pyobj -> result (list pyobj);
  (** [len(o)] *)
  py_len : pyobj -> result nat;
  (** [k in o] *)
  py_contains : pyobj -> pyobj -> result bool;
  (** [o[k]] *)
  py_getitem : pyobj -> pyobj -> result pyobj;
  (** [sorted(l)] *)
  py_sorted : list pyobj -> result (list pyobj);
  (** [isinstance(o, int)] *)
  py_is_int : pyobj -> bool;
  (** [callable(o)] *)
  py_callable : pyobj -> bool;
  (** truth value of [o] *)
  py_truth : pyobj -> bool;
  (** [str(o)] and [repr(o)] *)
  py_str : pyobj -> string;
  py_repr : pyobj -> string;
  (** the [str] value of [o] when [o] is a [str] *)
  as_str : pyobj -> option string;
  of_str : string -> pyobj;
  of_int : Z -> pyobj;
  (** [eval(command, globals)] with [globals] the given bindings *)
  py_eval : string -> list (string * pyobj) -> result pyobj;

  str_of_str : forall s, py_str (of_str s) = s;
  str_of_int_obj : forall z, py_str (of_int z) = str_of_int z;
  as_str_of_str : forall s, as_str (of_str s) = Some s;
  is_int_of_int : forall z, py_is_int (of_int z) = true;
  is_int_of_str : forall s, py_is_int (of_str s) = false;
  (** sorting strings never raises and orders them by code point *)
  sorted_strs : forall l, py_sorted (map of_str l) = Ok (map of_str (sort_str l));
  (** a sort that returns has rearranged its input *)
  sorted_perm : forall l l', py_sorted l = Ok l' -> Permutation l l'
}.

(** ** Type registry *)

(** The inspector classes of the module ([globals()] restricted to them). *)
Inductive InspectorClass : Type :=
| Inspector
| ModuleInspector
| ClassInspector
| InstanceInspector
| FunctionInspector
| InstanceMethodInspector
| CodeInspector
| ComplexInspector
| DictionaryInspector
| SequenceInspector
| SliceInspector.

(** [globals()[name]] for the names the registry can hold. *)
Definition globals (name : string) : option InspectorClass :=
  if String.eqb name "Inspector" then Some Inspector
  else if String.eqb name "ModuleInspector" then Some ModuleInspector
  else if String.eqb name "ClassInspector" then Some ClassInspector
  else if String.eqb name "InstanceInspector" then Some InstanceInspector
  else if String.eqb name "FunctionInspector" then Some FunctionInspector
  else if String.eqb name "InstanceMethodInspector" then Some InstanceMethodInspector
  else if String.eqb name "CodeInspector" then Some CodeInspector
  else if String.eqb name "ComplexInspector" then Some ComplexInspector
  else if String.eqb name "DictionaryInspector" then Some DictionaryInspector
  else if String.eqb name "SequenceInspector" then Some SequenceInspector
  else if String.eqb name "SliceInspector" then Some SliceInspector
  else None.

Definition notFinishedTypes : list string :=
  ["BufferType"; "EllipsisType"; "FrameType"; "TracebackType"; "XRangeType"].

(** [initializeInspectorMap]: the dictionary literal, then one entry per
    unfinished type. The module runs it once at import; [_InspectorMap] is
    the dictionary it leaves. *)
Definition initializeInspectorMap : list (string * string) :=
  let literal :=
    [ ("Builtin_function_or_methodType", "FunctionInspector");
      ("BuiltinFunctionType", "FunctionInspector");
      ("BuiltinMethodType", "FunctionInspector");
      ("ClassType", "ClassInspector");
      ("CodeType", "CodeInspector");
      ("ComplexType", "Inspector");
      ("DictionaryType", "DictionaryInspector");
      ("DictType", "DictionaryInspector");
      ("FileType", "Inspector");
      ("FloatType", "Inspector");
      ("FunctionType", "FunctionInspector");
      ("Instance methodType", "InstanceMethodInspector");
      ("InstanceType", "InstanceInspector");
      ("IntType", "Inspector");
      ("LambdaType", "Inspector");
      ("ListType", "SequenceInspector");
      ("LongType", "Inspector");
      ("MethodType", "FunctionInspector");
      ("ModuleType", "ModuleInspector");
      ("NoneType", "Inspector");
      ("SliceType", "SliceInspector");
      ("StringType", "SequenceInspector");
      ("TupleType", "SequenceInspector");
      ("TypeType", "Inspector");
      ("UnboundMethodType", "FunctionInspector") ] in
  fold_left (fun m each => dict_set each "Inspector" m) notFinishedTypes literal.

Definition _InspectorMap : list (string * string) :=
  Eval cbv in initializeInspectorMap.

(** ** Inspectors *)

Section Inspectors.
Context {R : PyRuntime}.
Local Open Scope st_scope.

(** An instance of one of the inspector classes: [cls] is its class, the
    other fields are the attributes [__init__] and the methods assign. *)
Record InspectorObj : Type := mkInspector {
  cls : InspectorClass;
  object : pyobj;
  lastPartNumber : Z;
  _partsList : list pyobj;
  _partNames : list string
}.

Definition set_lastPartNumber (n : Z) (self : InspectorObj) : InspectorObj :=
  mkInspector (cls self) (object self) n (_partsList self) (_partNames self).

Definition set_partsList (l : list pyobj) (self : InspectorObj) : InspectorObj :=
  mkInspector (cls self) (object self) (lastPartNumber self) l (_partNames self).

Definition set_partNames (l : list string) (self : InspectorObj) : InspectorObj :=
  mkInspector (cls self) (object self) (lastPartNumber self) (_partsList self) l.

(** [x + y] on strings, where [x] is an object an attribute lookup gave:
    anything but a [str] on the left of a [str] is a [TypeError]. *)
Definition str_add (x : pyobj) (y : string) : result pyobj :=
  match as_str x with
  | Some s => Ok (of_str (s ++ y))
  | None => Raise TypeError
  end.

(** [namedParts], as each class defines or inherits it. *)
Definition namedParts (self : InspectorObj) : result (list pyobj) :=
  match cls self with
  | ModuleInspector => Ok [of_str "__dict__"]
  | ClassInspector =>
      rbind (py_getattr (object self) (of_str "__dict__")) (fun d =>
      rbind (py_keys d) (fun ks =>
      Ok (of_str "__bases__" :: ks)))
  | InstanceInspector =>
      rbind (py_dir (object self)) (fun names =>
      Ok (of_str "__class__" :: names))
  | ComplexInspector => Ok [of_str "real"; of_str "imag"]
  | SliceInspector => Ok [of_str "start"; of_str "stop"; of_str "step"]
  | _ => py_dir (object self)
  end.

(** [Inspector.initializePartsList] *)
Definition Inspector_initializePartsList : ST InspectorObj unit :=
  modify (set_partsList []) ;;;
  self <- get ;;
  named <- lift (namedParts self) ;;
  sorted <- lift (py_sorted named) ;;
  modify (fun self => set_partsList (_partsList self ++ sorted) self).

(** [DictionaryInspector.initializePartsList] *)
Definition DictionaryInspector_initializePartsList : ST InspectorObj unit :=
  Inspector_initializePartsList ;;;
  self <- get ;;
  keys <- lift (py_iter (object self)) ;;
  sorted <- lift (py_sorted keys) ;;
  modify (fun self => set_partsList (_partsList self ++ sorted) self).

(** [SequenceInspector.initializePartsList] *)
Definition SequenceInspector_initializePartsList : ST InspectorObj unit :=
  Inspector_initializePartsList ;;;
  self <- get ;;
  n <- lift (py_len (object self)) ;;
  modify (fun self =>
    set_partsList (_partsList self ++ map of_int (py_range n)) self).

Definition initializePartsList : ST InspectorObj unit :=
  fun self =>
    match cls self with
    | DictionaryInspector => DictionaryInspector_initializePartsList self
    | SequenceInspector => SequenceInspector_initializePartsList self
    | _ => Inspector_initializePartsList self
    end.

Definition initializePartNames : ST InspectorObj unit :=
  modify (fun self => set_partNames ("up" :: map py_str (_partsList self)) self).

(** [C(anObject)]: the instance [__init__] leaves, or the exception it
    raises. *)
Definition new_inspector (C : InspectorClass) (anObject : pyobj)
  : result InspectorObj :=
  let self := mkInspector C anObject 0 [] [] in
  match (initializePartsList ;;; initializePartNames) self with
  | (self', Ok _) => Ok self'
  | (_, Raise e) => Raise e
  end.

(** [title], as each class defines or inherits it. *)
Definition title (self : InspectorObj) : result pyobj :=
  match cls self with
  | ClassInspector =>
      rbind (py_getattr (object self) (of_str "__name__")) (fun n =>
      str_add n " Class")
  | InstanceInspector =>
      rbind (py_getattr (object self) (of_str "__class__")) (fun c =>
      py_getattr c (of_str "__name__"))
  | FunctionInspector =>
      rbind (py_getattr (object self) (of_str "__name__")) (fun n =>
      str_add n "()")
  | InstanceMethodInspector =>
      rbind (py_getattr (object self) (of_str "__self__")) (fun s =>
      rbind (py_getattr s (of_str "__class__")) (fun c =>
      rbind (py_getattr (object self) (of_str "__name__")) (fun n =>
      match as_str n with
      | Some name => Ok (of_str (py_str c ++ "." ++ name ++ "()"))
      | None => Raise TypeError
      end)))
  | CodeInspector => Ok (of_str (py_str (object self)))
  | _ => Ok (of_str (capitalize (type_name (object self))))
  end.

Definition getLastPartNumber (self : InspectorObj) : Z := lastPartNumber self.

Definition partNames (self : InspectorObj) : list string := _partNames self.

(** [privatePartNumber]: [self._partsList[partNumber - 1]] *)
Definition privatePartNumber (self : InspectorObj) (partNumber : Z)
  : result pyobj :=
  py_index (_partsList self) (partNumber - 1).

(** [Inspector.partNumber] *)
Definition Inspector_partNumber (partNumber : Z) : ST InspectorObj pyobj :=
  modify (set_lastPartNumber partNumber) ;;;
  self <- get ;;
  if partNumber =? 0 then ret (object self)
  else
    part <- lift (privatePartNumber self partNumber) ;;
    lift (py_getattr (object self) part).

(** [DictionaryInspector.partNumber] *)
Definition DictionaryInspector_partNumber (partNumber : Z)
  : ST InspectorObj pyobj :=
  modify (set_lastPartNumber partNumber) ;;;
  self <- get ;;
  if partNumber =? 0 then ret (object self)
  else
    key <- lift (privatePartNumber self partNumber) ;;
    present <- lift (py_contains (object self) key) ;;
    if (present : bool) then lift (py_getitem (object self) key)
    else lift (py_getattr (object self) key).

(** [SequenceInspector.partNumber] *)
Definition SequenceInspector_partNumber (partNumber : Z)
  : ST InspectorObj pyobj :=
  modify (set_lastPartNumber partNumber) ;;;
  self <- get ;;
  if partNumber =? 0 then ret (object self)
  else
    index <- lift (privatePartNumber self partNumber) ;;
    if py_is_int index then lift (py_getitem (object self) index)
    else lift (py_getattr (object self) index).

Definition partNumber (n : Z) : ST InspectorObj pyobj :=
  fun self =>
    match cls self with
    | DictionaryInspector => DictionaryInspector_partNumber n self
    | SequenceInspector => SequenceInspector_partNumber n self
    | _ => Inspector_partNumber n self
    end.

Definition selectedPart : ST InspectorObj pyobj :=
  self <- get ;;
  partNumber (getLastPartNumber self).

(** [getattr(o, '__doc__', None)]: a missing attribute gives the default. *)
Definition getattr_doc (o : pyobj) : result (option pyobj) :=
  match py_getattr o (of_str "__doc__") with
  | Ok d => Ok (Some d)
  | Raise AttributeError => Ok None
  | Raise e => Raise e
  end.

Definition stringForPartNumber (n : Z) : ST InspectorObj string :=
  o <- partNumber n ;;
  doc <- (if py_callable o then lift (getattr_doc o) else ret None) ;;
  match doc with
  | Some d =>
      if py_truth d then ret (py_str o ++ String (ascii_of_nat 10) (py_str d))
      else ret (py_str o)
  | None => ret (py_str o)
  end.

(** [inspectorFor]: the lines printed, and the inspector or the exception. *)
Definition inspectorFor (anObject : pyobj) : list string * result InspectorObj :=
  let typeName := capitalize (type_name anObject) ++ "Type" in
  let '(printed, inspectorName) :=
    match assoc typeName _InspectorMap with
    | Some inspectorName => ([], inspectorName)
    | None => (["Can't find an inspector for " ++ typeName], "Inspector")
    end in
  match globals inspectorName with
  | Some C => (printed, new_inspector C anObject)
  | None => (printed, Raise KeyError)
  end.

End Inspectors.

(** ** Widgets *)

Definition newline : string := String (ascii_of_nat 10) EmptyString.

(** The text after the last [">>> "] of the command text, if there is one:
    [search('>>> ', INSERT, backwards=1)] with the insertion cursor at the
    end, then four characters on. *)
Fixpoint after_last_prompt (s : string) (found : option string) : option string :=
  match s with
  | EmptyString => found
  | String _ s' =>
      after_last_prompt s'
        (if String.prefix ">>> " s then Some (substring 4 (String.length s - 4) s)
         else found)
  end.

(** The text up to the end of its first line. *)
Fixpoint to_lineend (s : string) : string :=
  match s with
  | EmptyString => EmptyString
  | String c s' =>
      if Ascii.eqb c (ascii_of_nat 10) then EmptyString
      else String c (to_lineend s')
  end.

(** [select_set(n)] on a list box with [size] items and selection [sel]
    (ascending): an index outside the items selects nothing. *)
Fixpoint insert_index (n : Z) (sel : list Z) : list Z :=
  match sel with
  | [] => [n]
  | m :: sel' =>
      if n <? m then n :: sel
      else if n =? m then sel
      else m :: insert_index n sel'
  end.

Definition select_set (size : nat) (n : Z) (sel : list Z) : list Z :=
  if (0 <=? n) && (n <? Z.of_nat size) then insert_index n sel else sel.

(** [select_clear(n)] *)
Definition select_clear (n : Z) (sel : list Z) : list Z :=
  filter (fun m => negb (m =? n)) sel.

(** ** Inspector windows *)

Section Windows.
Context {R : PyRuntime}.
Local Open Scope st_scope.

(** An [InspectorWindow]: the stack of inspectors and what its widgets
    show. *)
Record Window : Type := mkWindow {
  inspectors : list InspectorObj;
  top_title : string;
  listItems : list string;
  curselection : list Z;
  valueText : string;
  commandText : string
}.

Definition set_inspectors (l : list InspectorObj) (w : Window) : Window :=
  mkWindow l (top_title w) (listItems w) (curselection w) (valueText w)
    (commandText w).

Definition set_top_title (t : string) (w : Window) : Window :=
  mkWindow (inspectors w) t (listItems w) (curselection w) (valueText w)
    (commandText w).

Definition set_listbox (items : list string) (sel : list Z) (w : Window) : Window :=
  mkWindow (inspectors w) (top_title w) items sel (valueText w)
    (commandText w).

Definition set_valueText (t : string) (w : Window) : Window :=
  mkWindow (inspectors w) (top_title w) (listItems w) (curselection w) t
    (commandText w).

Definition set_commandText (t : string) (w : Window) : Window :=
  mkWindow (inspectors w) (top_title w) (listItems w) (curselection w)
    (valueText w) t.

(** [InspectorWindow(inspector)]; the widget fields hold what
    [createViews] leaves once [open] has built them. *)
Definition InspectorWindow_new (inspector : InspectorObj) : Window :=
  mkWindow [inspector] EmptyString [] [] EmptyString ">>> ".

(** [topInspector]: [self.inspectors[len(self.inspectors) - 1]] *)
Definition topInspector (w : Window) : result InspectorObj :=
  py_index (inspectors w) (Z.of_nat (List.length (inspectors w)) - 1).

(** A method call on [self.topInspector()]: the inspector is the last
    element of the stack and is mutated in place. *)
Definition on_top {A : Type} (m : ST InspectorObj A) : ST Window A :=
  fun w =>
    match topInspector w with
    | Ok i =>
        let '(i', r) := m i in
        (set_inspectors (removelast (inspectors w) ++ [i']) w, r)
    | Raise e => (w, Raise e)
    end.

Definition InspectorWindow_selectedPart : ST Window pyobj :=
  on_top selectedPart.

Definition inspectedObject (w : Window) : result pyobj :=
  rbind (topInspector w) (fun i => Ok (object i)).

Definition setTitle : ST Window unit :=
  w <- get ;;
  i <- lift (topInspector w) ;;
  t <- lift (title i) ;;
  match as_str t with
  | Some s => modify (set_top_title ("Inspecting: " ++ s))
  | None => throw TypeError
  end.

Definition fillList : ST Window unit :=
  modify (set_listbox [] []) ;;;
  w <- get ;;
  i <- lift (topInspector w) ;;
  modify (fun w => set_listbox (listItems w ++ partNames i) (curselection w) w) ;;;
  modify (fun w => set_listbox (listItems w) (select_clear 0 (curselection w)) w).

(** [selectedIndex]: the first selected index, or [None]. *)
Definition selectedIndex (w : Window) : option Z :=
  match curselection w with
  | [] => None
  | partNumber :: _ => Some partNumber
  end.

Definition listSelectionChanged : ST Window unit :=
  w <- get ;;
  let partNumber :=
    match selectedIndex w with
    | Some n => n
    | None => 0
    end in
  string <- on_top (stringForPartNumber partNumber) ;;
  modify (set_valueText string).

Definition update : ST Window unit :=
  setTitle ;;;
  fillList ;;;
  w <- get ;;
  i <- lift (topInspector w) ;;
  let partNumber := getLastPartNumber i in
  modify (fun w => set_listbox (listItems w) (select_clear 0 (curselection w)) w) ;;;
  modify (fun w =>
    set_listbox (listItems w)
      (select_set (List.length (listItems w)) partNumber (curselection w)) w) ;;;
  listSelectionChanged.

(** [open]: build the widgets, then refresh. *)
Definition open : ST Window unit := update.

(** [inspectorForSelectedPart]; what [inspectorFor] prints goes to
    standard output, which is no part of the window. *)
Definition inspectorForSelectedPart : ST Window (option InspectorObj) :=
  w <- get ;;
  match selectedIndex w with
  | None => ret None
  | Some n =>
      part <- on_top (partNumber n) ;;
      inspector <- lift (snd (inspectorFor part)) ;;
      ret (Some inspector)
  end.

(** [pop] *)
Definition pop : ST Window unit :=
  w <- get ;;
  if (1 <? List.length (inspectors w))%nat then
    modify (fun w => set_inspectors (removelast (inspectors w)) w) ;;;
    update
  else ret tt.

(** [dive] *)
Definition dive : ST Window unit :=
  inspector <- inspectorForSelectedPart ;;
  match inspector with
  | None => ret tt
  | Some inspector =>
      modify (fun w => set_inspectors (inspectors w ++ [inspector]) w) ;;;
      update
  end.

(** [InspectorWindow.inspect]: the value is the window it opened, [None]
    when nothing is selected. *)
Definition InspectorWindow_inspect : ST Window (option Window) :=
  inspector <- inspectorForSelectedPart ;;
  match inspector with
  | None => ret None
  | Some inspector =>
      match open (InspectorWindow_new inspector) with
      | (opened, Ok _) => ret (Some opened)
      | (_, Raise e) => throw e
      end
  end.

(** [popOrDive] *)
Definition popOrDive : ST Window unit :=
  w <- get ;;
  match selectedIndex w with
  | Some 0 => pop
  | _ => dive
  end.

(** [evalCommand], for a command widget whose insertion cursor is at the
    end of its text, where it is once a line has been typed at the last
    prompt and Return pressed: the backward search for the prompt starts
    there and the result is inserted there. *)
Definition evalCommand : ST Window unit :=
  w <- get ;;
  match after_last_prompt (commandText w) None with
  | None => ret tt
  | Some rest =>
      let command := to_lineend rest in
      if String.eqb command EmptyString then ret tt
      else
        this <- InspectorWindow_selectedPart ;;
        w <- get ;;
        top <- lift (topInspector w) ;;
        result <- lift (py_eval command [("this", this); ("object", object top)]) ;;
        modify (fun w =>
          set_commandText (commandText w ++ py_repr result ++ newline ++ ">>> ") w)
  end.

(** [inspect(anObject)]: the lines printed and the window returned. *)
Definition inspect (anObject : pyobj) : list string * result Window :=
  let '(out, r) := inspectorFor anObject in
  match r with
  | Ok inspector =>
      match open (InspectorWindow_new inspector) with
      | (inspectorWindow, Ok _) => (out, Ok inspectorWindow)
      | (_, Raise e) => (out, Raise e)
      end
  | Raise e => (out, Raise e)
  end.

End Windows.

(** ** Sorting strings *)

Lemma insert_str_perm (x : string) (l : list string) :
  Permutation (x :: l) (insert_str x l).
Proof.
  induction l as [|y l IH]; simpl.
  - apply Permutation_refl.
  - destruct (String.leb x y).
    + apply Permutation_refl.
    + eapply perm_trans; [apply perm_swap|].
      apply perm_skip, IH.
Qed.

Lemma sort_str_perm (l : list string) : Permutation l (sort_str l).
Proof.
  induction l as [|x l IH]; simpl.
  - apply perm_nil.
  - eapply perm_trans; [apply perm_skip, IH|apply insert_str_perm].
Qed.

Lemma insert_str_sorted (x : string) (l : list string) :
  Sorted str_le l -> Sorted str_le (insert_str x l).
Proof.
  induction l as [|y l IH]; intros Hs; simpl.
  - repeat constructor.
  - destruct (String.leb x y) eqn:E.
    + constructor; [assumption|]. constructor. exact E.
    + inversion Hs as [|? ? Hs' Hhd]; subst.
      constructor; [apply IH, Hs'|].
      assert (Hyx : str_le y x).
      { destruct (String.leb_total x y) as [H|H]; [congruence|exact H]. }
      destruct l as [|z l]; simpl.
      * constructor. exact Hyx.
      * destruct (String.leb x z); constructor; [exact Hyx|].
        inversion Hhd; assumption.
Qed.

Lemma sort_str_sorted (l : list string) : Sorted str_le (sort_str l).
Proof.
  induction l as [|x l IH]; simpl.
  - constructor.
  - apply insert_str_sorted, IH.
Qed.

(** ** A concrete runtime

    A small universe of Python values for the examples: integers, strings,
    [None], dictionaries, lists, and objects that carry a type name and an
    attribute table. It keeps to what the examples need: [dir] lists the
    attribute table and nothing else, a built-in value has a few of its
    attributes only, the string form of an object omits its module and
    address, keys and members are compared by value when they are
    integers, strings or [None], and [sorted] orders integers and strings
    (a list mixing them, or holding several values of another kind, raises
    [TypeError] as in Python 3). *)

Module Demo.

#[local] Set Warnings "-register-all".

Inductive obj : Type :=
| PInt (z : Z)
| PStr (s : string)
| PNone
| PDict (items : list (obj * obj))
| PList (elems : list obj)
| PObject (tname : string) (attrs : list (string * obj)).

Definition obj_type_name (o : obj) : string :=
  match o with
  | PInt _ => "int"
  | PStr _ => "str"
  | PNone => "NoneType"
  | PDict _ => "dict"
  | PList _ => "list"
  | PObject tname _ => tname
  end.

Definition class_of (name : string) : obj :=
  PObject "type" [("__name__", PStr name)].

Definition attrs_of (o : obj) : list (string * obj) :=
  match o with
  | PInt z => [("__class__", class_of "int"); ("imag", PInt 0); ("real", PInt z)]
  | PStr _ => [("__class__", class_of "str")]
  | PNone => [("__class__", class_of "NoneType")]
  | PDict _ => [("__class__", class_of "dict")]
  | PList _ => [("__class__", class_of "list")]
  | PObject _ attrs => attrs
  end.

Definition obj_dir (o : obj) : result (list obj) :=
  Ok (map PStr (sort_str (map fst (attrs_of o)))).

Definition obj_getattr (o name : obj) : result obj :=
  match name with
  | PStr s =>
      match assoc s (attrs_of o) with
      | Some v => Ok v
      | None => Raise AttributeError
      end
  | _ => Raise TypeError
  end.

Definition obj_eqb (a b : obj) : bool :=
  match a, b with
  | PInt x, PInt y => x =? y
  | PStr x, PStr y => String.eqb x y
  | PNone, PNone => true
  | _, _ => false
  end.

Definition obj_keys (o : obj) : result (list obj) :=
  match o with
  | PDict items => Ok (map fst items)
  | _ => Raise AttributeError
  end.

Definition chars (s : string) : list obj :=
  map (fun c => PStr (String c EmptyString)) (list_ascii_of_string s).

Definition obj_iter (o : obj) : result (list obj) :=
  match o with
  | PDict items => Ok (map fst items)
  | PList elems => Ok elems
  | PStr s => Ok (chars s)
  | _ => Raise TypeError
  end.

Definition obj_len (o : obj) : result nat :=
  match o with
  | PDict items => Ok (List.length items)
  | PList elems => Ok (List.length elems)
  | PStr s => Ok (String.length s)
  | _ => Raise TypeError
  end.

Fixpoint is_substring (fuel : nat) (pat s : string) : bool :=
  if String.prefix pat s then true
  else
    match fuel, s with
    | S fuel', String _ s' => is_substring fuel' pat s'
    | _, _ => false
    end.

Definition obj_contains (o k : obj) : result bool :=
  match o with
  | PDict items => Ok (existsb (fun kv => obj_eqb (fst kv) k) items)
  | PList elems => Ok (existsb (fun e => obj_eqb e k) elems)
  | PStr s =>
      match k with
      | PStr pat => Ok (is_substring (String.length s) pat s)
      | _ => Raise TypeError
      end
  | _ => Raise TypeError
  end.

Fixpoint dict_get (k : obj) (items : list (obj * obj)) : result obj :=
  match items with
  | [] => Raise KeyError
  | (k', v) :: items' => if obj_eqb k' k then Ok v else dict_get k items'
  end.

Definition obj_getitem (o k : obj) : result obj :=
  match o with
  | PDict items => dict_get k items
  | PList elems =>
      match k with
      | PInt i => py_index elems i
      | _ => Raise TypeError
      end
  | PStr s =>
      match k with
      | PInt i => py_index (chars s) i
      | _ => Raise TypeError
      end
  | _ => Raise TypeError
  end.

Fixpoint all_str (l : list obj) : option (list string) :=
  match l with
  | [] => Some []
  | PStr s :: l' => option_map (cons s) (all_str l')
  | _ :: _ => None
  end.

Fixpoint all_int (l : list obj) : option (list Z) :=
  match l with
  | [] => Some []
  | PInt z :: l' => option_map (cons z) (all_int l')
  | _ :: _ => None
  end.

Fixpoint insert_int (x : Z) (l : list Z) : list Z :=
  match l with
  | [] => [x]
  | y :: l' => if x <=? y then x :: l else y :: insert_int x l'
  end.

Fixpoint sort_int (l : list Z) : list Z :=
  match l with
  | [] => []
  | x :: l' => insert_int x (sort_int l')
  end.

Definition obj_sorted (l : list obj) : result (list obj) :=
  match all_str l with
  | Some ss => Ok (map PStr (sort_str ss))
  | None =>
      match all_int l with
      | Some zs => Ok (map PInt (sort_int zs))
      | None =>
          match l with
          | [_] => Ok l
          | _ => Raise TypeError
          end
      end
  end.

Definition obj_is_int (o : obj) : bool :=
  match o with
  | PInt _ => true
  | _ => false
  end.

Definition obj_callable (o : obj) : bool :=
  match assoc "__call__" (attrs_of o) with
  | Some _ => true
  | None => false
  end.

Definition obj_truth (o : obj) : bool :=
  match o with
  | PInt z => negb (z =? 0)
  | PStr s => negb (String.eqb s EmptyString)
  | PNone => false
  | PDict items => negb (Nat.eqb (List.length items) 0)
  | PList elems => negb (Nat.eqb (List.length elems) 0)
  | PObject _ _ => true
  end.

Fixpoint obj_repr (o : obj) : string :=
  match o with
  | PInt z => str_of_int z
  | PStr s => "'" ++ s ++ "'"
  | PNone => "None"
  | PDict items =>
      "{" ++
      (fix go (l : list (obj * obj)) : string :=
         match l with
         | [] => EmptyString
         | (k, v) :: l' =>
             obj_repr k ++ ": " ++ obj_repr v ++
             match l' with
             | [] => EmptyString
             | _ => ", " ++ go l'
             end
         end) items ++ "}"
  | PList elems =>
      "[" ++
      (fix go (l : list obj) : string :=
         match l with
         | [] => EmptyString
         | e :: l' =>
             obj_repr e ++
             match l' with
             | [] => EmptyString
             | _ => ", " ++ go l'
             end
         end) elems ++ "]"
  | PObject tname _ => "<" ++ tname ++ " object>"
  end.

Definition obj_str (o : obj) : string :=
  match o with
  | PStr s => s
  | _ => obj_repr o
  end.

Definition obj_as_str (o : obj) : option string :=
  match o with
  | PStr s => Some s
  | _ => None
  end.

(** The evaluator of the examples: a name bound in the given globals
    evaluates to its value, [1//0] raises [ZeroDivisionError]; any other
    text is outside the fragment and is rejected. *)
Definition obj_eval (command : string) (bindings : list (string * obj))
  : result obj :=
  match assoc command bindings with
  | Some v => Ok v
  | None =>
      if String.eqb command "1//0" then Raise ZeroDivisionError
      else Raise SyntaxError
  end.

(** The laws of the runtime hold in this universe. *)

Lemma insert_int_perm (x : Z) (l : list Z) :
  Permutation (x :: l) (insert_int x l).
Proof.
  induction l as [|y l IH]; simpl.
  - apply Permutation_refl.
  - destruct (x <=? y).
    + apply Permutation_refl.
    + eapply perm_trans; [apply perm_swap|].
      apply perm_skip, IH.
Qed.

Lemma sort_int_perm (l : list Z) : Permutation l (sort_int l).
Proof.
  induction l as [|x l IH]; simpl.
  - apply perm_nil.
  - eapply perm_trans; [apply perm_skip, IH|apply insert_int_perm].
Qed.

Lemma all_str_map (l : list string) : all_str (map PStr l) = Some l.
Proof.
  induction l as [|x l IH]; simpl; [reflexivity|].
  rewrite IH. reflexivity.
Qed.

Lemma all_str_inv (l : list obj) (ss : list string) :
  all_str l = Some ss -> l = map PStr ss.
Proof.
  revert ss. induction l as [|o l IH]; intros ss H; simpl in H.
  - injection H as <-. reflexivity.
  - destruct o; try discriminate.
    destruct (all_str l) as [ss'|]; simpl in H; [|discriminate].
    injection H as <-. simpl. f_equal. apply IH. reflexivity.
Qed.

Lemma all_int_inv (l : list obj) (zs : list Z) :
  all_int l = Some zs -> l = map PInt zs.
Proof.
  revert zs. induction l as [|o l IH]; intros zs H; simpl in H.
  - injection H as <-. reflexivity.
  - destruct o; try discriminate.
    destruct (all_int l) as [zs'|]; simpl in H; [|discriminate].
    injection H as <-. simpl. f_equal. apply IH. reflexivity.
Qed.

Lemma obj_sorted_strs (l : list string) :
  obj_sorted (map PStr l) = Ok (map PStr (sort_str l)).
Proof. unfold obj_sorted. rewrite all_str_map. reflexivity. Qed.

Lemma obj_sorted_perm (l l' : list obj) :
  obj_sorted l = Ok l' -> Permutation l l'.
Proof.
  unfold obj_sorted. intros H.
  destruct (all_str l) as [ss|] eqn:Es.
  - injection H as <-. rewrite (all_str_inv _ _ Es).
    apply Permutation_map, sort_str_perm.
  - destruct (all_int l) as [zs|] eqn:Ez.
    + injection H as <-. rewrite (all_int_inv _ _ Ez).
      apply Permutation_map, sort_int_perm.
    + destruct l as [|a [|b l]]; try discriminate.
      injection H as <-. apply Permutation_refl.
Qed.

#[export] Instance runtime : PyRuntime := {|
  pyobj := obj;
  type_name := obj_type_name;
  py_dir := obj_dir;
  py_getattr := obj_getattr;
  py_keys := obj_keys;
  py_iter := obj_iter;
  py_len := obj_len;
  py_contains := obj_contains;
  py_getitem := obj_getitem;
  py_sorted := obj_sorted;
  py_is_int := obj_is_int;
  py_callable := obj_callable;
  py_truth := obj_truth;
  py_str := obj_str;
  py_repr := obj_repr;
  as_str := obj_as_str;
  of_str := PStr;
  of_int := PInt;
  py_eval := obj_eval;
  str_of_str := fun s => eq_refl;
  str_of_int_obj := fun z => eq_refl;
  as_str_of_str := fun s => eq_refl;
  is_int_of_int := fun z => eq_refl;
  is_int_of_str := fun s => eq_refl;
  sorted_strs := obj_sorted_strs;
  sorted_perm := obj_sorted_perm
|}.

(** Objects of the examples. *)

Definition d_ab : obj := PDict [(PStr "a", PInt 1); (PStr "b", PInt 2)].

Definition mixed_keys : obj := PDict [(PInt 1, PStr "a"); (PStr "b", PInt 2)].

Definition seq3 : obj := PList [PInt 10; PInt 20; PInt 30].

Definition a_complex : obj :=
  PObject "complex" [("imag", PInt 2); ("real", PInt 1)].

(** An instance of a user class [Foo] with attributes [x] and [y]. *)
Definition foo : obj := PObject "Foo" [("x", PInt 5); ("y", d_ab)].


End Demo.

(** ** Properties of the inspectors *)

Section InspectorFacts.
Context {R : PyRuntime}.

(** The part of an inspector no method assigns after [__init__]. *)
Definition skeleton (self : InspectorObj)
  : InspectorClass * pyobj * list pyobj * list string :=
  (cls self, object self, _partsList self, _partNames self).

(** The resolution of an entry of the parts sequence, as the
    specification words it for the three families of variants. *)
Definition resolve_entry (self : InspectorObj) (entry : pyobj) : result pyobj :=
  match cls self with
  | DictionaryInspector =>
      match py_contains (object self) entry with
      | Ok true => py_getitem (object self) entry
      | Ok false => py_getattr (object self) entry
      | Raise e => Raise e
      end
  | SequenceInspector =>
      if py_is_int entry then py_getitem (object self) entry
      else py_getattr (object self) entry
  | _ => py_getattr (object self) entry
  end.

(** What [DictionaryInspector] and [SequenceInspector] append after the
    reflective parts. *)
Definition appended_parts (C : InspectorClass) (o : pyobj) : result (list pyobj) :=
  match C with
  | DictionaryInspector => rbind (py_iter o) py_sorted
  | SequenceInspector => rbind (py_len o) (fun n => Ok (map of_int (py_range n)))
  | _ => Ok []
  end.

Lemma set_lastPartNumber_same (self : InspectorObj) :
  set_lastPartNumber (lastPartNumber self) self = self.
Proof. destruct self; reflexivity. Qed.

Lemma py_index_in_range {A : Type} (l : list A) (i : Z) :
  0 <= i < Z.of_nat (List.length l) ->
  exists a, nth_error l (Z.to_nat i) = Some a /\ py_index l i = Ok a.
Proof.
  intros Hi. unfold py_index.
  assert (Hneg : (i <? 0) = false) by (apply Z.ltb_ge; lia).
  rewrite Hneg.
  assert (Hin : ((0 <=? i) && (i <? Z.of_nat (List.length l)))%bool = true).
  { apply andb_true_iff. split; [apply Z.leb_le|apply Z.ltb_lt]; lia. }
  rewrite Hin.
  destruct (nth_error l (Z.to_nat i)) as [a|] eqn:E.
  - exists a. split; reflexivity.
  - apply nth_error_None in E. lia.
Qed.

Ltac run_st :=
  unfold Inspector_partNumber, DictionaryInspector_partNumber,
    SequenceInspector_partNumber, bind, modify, get, lift, ret, throw;
  simpl.

Lemma partNumber_state (n : Z) (self : InspectorObj) :
  fst (partNumber n self) = set_lastPartNumber n self.
Proof.
  unfold partNumber.
  destruct (cls self); run_st;
    destruct (n =? 0); simpl; try reflexivity;
    destruct (privatePartNumber _ n) as [part|e]; simpl; try reflexivity.
  - destruct (py_contains _ part) as [[|]|e]; reflexivity.
  - destruct (py_is_int part); reflexivity.
Qed.

Lemma partNumber_result (n : Z) (self : InspectorObj) :
  snd (partNumber n self) =
    if n =? 0 then Ok (object self)
    else rbind (py_index (_partsList self) (n - 1)) (resolve_entry self).
Proof.
  unfold partNumber, resolve_entry, privatePartNumber.
  destruct (cls self); run_st; unfold privatePartNumber; simpl;
    destruct (n =? 0); simpl; try reflexivity;
    destruct (py_index _ (n - 1)) as [part|e]; simpl; try reflexivity.
  - destruct (py_contains _ part) as [[|]|e]; reflexivity.
  - destruct (py_is_int part); reflexivity.
Qed.

Lemma partNumber_eq (n : Z) (self : InspectorObj) :
  partNumber n self =
    (set_lastPartNumber n self,
     if n =? 0 then Ok (object self)
     else rbind (py_index (_partsList self) (n - 1)) (resolve_entry self)).
Proof.
  rewrite <- partNumber_state, <- partNumber_result.
  destruct (partNumber n self); reflexivity.
Qed.

Lemma stringForPartNumber_state (n : Z) (self : InspectorObj) :
  fst (stringForPartNumber n self) = set_lastPartNumber n self.
Proof.
  unfold stringForPartNumber, bind. rewrite partNumber_eq.
  destruct (if n =? 0 then _ else _) as [o|e]; [|reflexivity].
  unfold lift, ret.
  destruct (py_callable o); [destruct (getattr_doc o) as [[d|]|e]|]; simpl;
    try reflexivity.
  destruct (py_truth d); reflexivity.
Qed.

Lemma selectedPart_state (self : InspectorObj) :
  fst (selectedPart self) = self.
Proof.
  unfold selectedPart, bind, get, getLastPartNumber.
  rewrite partNumber_state. apply set_lastPartNumber_same.
Qed.

(** [C(anObject)] spelled out: the reflective parts sorted, what the class
    appends, and the names drawn from both. *)
Lemma new_inspector_eq (C : InspectorClass) (o : pyobj) :
  new_inspector C o =
    rbind (namedParts (mkInspector C o 0 [] [])) (fun named =>
    rbind (py_sorted named) (fun reflective =>
    rbind (appended_parts C o) (fun extra =>
    Ok (mkInspector C o 0 (reflective ++ extra)
          ("up" :: map py_str (reflective ++ extra)))))).
Proof.
  unfold new_inspector, initializePartsList, initializePartNames, appended_parts,
    DictionaryInspector_initializePartsList, SequenceInspector_initializePartsList,
    Inspector_initializePartsList, bind, modify, get, lift, namedParts.
  destruct C; simpl;
    repeat match goal with
    | |- context [py_getattr ?a ?b] => destruct (py_getattr a b); simpl
    | |- context [py_dir ?a] => destruct (py_dir a); simpl
    | |- context [py_keys ?a] => destruct (py_keys a); simpl
    | |- context [py_sorted ?a] => destruct (py_sorted a); simpl
    | |- context [py_iter ?a] => destruct (py_iter a); simpl
    | |- context [py_len ?a] => destruct (py_len a); simpl
    end;
    rewrite ?app_nil_r; reflexivity.
Qed.

Lemma namedParts_skeleton (a b : InspectorObj) :
  cls a = cls b -> object a = object b -> namedParts a = namedParts b.
Proof. unfold namedParts. intros -> ->. reflexivity. Qed.

Lemma new_inspector_cls (C : InspectorClass) (o : pyobj) (self : InspectorObj) :
  new_inspector C o = Ok self ->
  cls self = C /\ object self = o /\ lastPartNumber self = 0.
Proof.
  rewrite new_inspector_eq.
  destruct (namedParts _); simpl; [|discriminate].
  destruct (py_sorted _); simpl; [|discriminate].
  destruct (appended_parts C o); simpl; [|discriminate].
  intros H. injection H as <-. repeat split.
Qed.

(** C10. [partNumber(n)] assigns [n] to the last-selected index before it
    resolves anything: whatever the outcome, and in particular when the
    resolution raises, the inspector it leaves is the one it was given
    with [lastPartNumber] set to [n]. *)
Theorem partNumber_records_index_before_resolving (self : InspectorObj) (n : Z) :
  fst (partNumber n self) = set_lastPartNumber n self /\
  lastPartNumber (fst (partNumber n self)) = n /\
  (forall e, snd (partNumber n self) = Raise e ->
     lastPartNumber (fst (partNumber n self)) = n).
Proof.
  rewrite partNumber_state. repeat split.
Qed.

(** C3. For every inspector and every index [n] in range: [partNumber(0)]
    returns the wrapped object; for [n >= 1] the entry [n - 1] of the parts
    sequence is resolved as [resolve_entry] says (attribute lookup in the
    base family; keyed lookup for a present key and attribute lookup for
    an absent one in the Dictionary variant; indexing for an integer
    entry and attribute lookup otherwise in the Sequence variant); and [n]
    is recorded as the last-selected index. *)
Theorem partNumber_resolves_in_range (self : InspectorObj) (n : Z) :
  0 <= n <= Z.of_nat (List.length (_partsList self)) ->
  lastPartNumber (fst (partNumber n self)) = n /\
  (n = 0 -> partNumber n self = (set_lastPartNumber n self, Ok (object self))) /\
  (1 <= n ->
   exists entry,
     nth_error (_partsList self) (Z.to_nat (n - 1)) = Some entry /\
     partNumber n self = (set_lastPartNumber n self, resolve_entry self entry)).
Proof.
  intros Hn. rewrite partNumber_eq. simpl.
  split; [reflexivity|]. split.
  - intros ->. reflexivity.
  - intros H1.
    destruct (py_index_in_range (_partsList self) (n - 1)) as (entry & Hnth & Hidx);
      [lia|].
    exists entry. split; [exact Hnth|].
    assert (E : (n =? 0) = false) by (apply Z.eqb_neq; lia).
    rewrite E, Hidx. reflexivity.
Qed.

(** C4. The parts sequence of an inspector is what its construction made
    it: the named parts, sorted (lexicographically when they are strings,
    as the reflective listing is), followed in the Dictionary variant by
    the sorted keys of the object and in the Sequence variant by the
    indices [0 .. len - 1] in order; [partNames()] is ["up"] followed by
    the string form of each entry in that order; and no later
    [partNumber] or [stringForPartNumber] call changes either. *)
Theorem parts_fixed_at_construction (C : InspectorClass) (o : pyobj)
    (self : InspectorObj) :
  new_inspector C o = Ok self ->
  (exists named reflective,
     namedParts self = Ok named /\
     py_sorted named = Ok reflective /\
     Permutation named reflective /\
     (forall names, named = map of_str names ->
        reflective = map of_str (sort_str names) /\
        Sorted str_le (sort_str names) /\
        Permutation names (sort_str names)) /\
     match C with
     | DictionaryInspector =>
         exists keys sorted,
           py_iter o = Ok keys /\ py_sorted keys = Ok sorted /\
           Permutation keys sorted /\
           _partsList self = (reflective ++ sorted)%list
     | SequenceInspector =>
         exists len,
           py_len o = Ok len /\
           _partsList self = (reflective ++ map of_int (map Z.of_nat (seq 0 len)))%list
     | _ => _partsList self = reflective
     end) /\
  partNames self = "up" :: map py_str (_partsList self) /\
  (forall n,
     _partsList (fst (partNumber n self)) = _partsList self /\
     partNames (fst (partNumber n self)) = partNames self /\
     _partsList (fst (stringForPartNumber n self)) = _partsList self /\
     partNames (fst (stringForPartNumber n self)) = partNames self).
Proof.
  intros Hnew.
  destruct (new_inspector_cls _ _ _ Hnew) as (Hc & Ho & _).
  rewrite new_inspector_eq in Hnew.
  rewrite (namedParts_skeleton _ self) in Hnew by (simpl; congruence).
  destruct (namedParts self) as [named|] eqn:En; simpl in Hnew; [|discriminate].
  destruct (py_sorted named) as [reflective|] eqn:Es; simpl in Hnew; [|discriminate].
  destruct (appended_parts C o) as [extra|] eqn:Ex; simpl in Hnew; [|discriminate].
  injection Hnew as Hself.
  assert (Hparts : _partsList self = (reflective ++ extra)%list) by (rewrite <- Hself; reflexivity).
  split; [|split].
  - exists named, reflective. repeat split; try assumption.
    + apply sorted_perm. exact Es.
    + rewrite H, sorted_strs in Es. injection Es as <-. reflexivity.
    + apply sort_str_sorted.
    + apply sort_str_perm.
    + unfold appended_parts in Ex.
      destruct C; try (injection Ex as <-; rewrite app_nil_r in Hparts; exact Hparts).
      * destruct (py_iter o) as [keys|] eqn:Ek; simpl in Ex; [|discriminate].
        exists keys, extra. repeat split; try assumption.
        apply sorted_perm. exact Ex.
      * destruct (py_len o) as [len|] eqn:El; simpl in Ex; [|discriminate].
        injection Ex as <-. exists len. split; [reflexivity|exact Hparts].
  - rewrite <- Hself. reflexivity.
  - intros n. rewrite partNumber_state, stringForPartNumber_state.
    repeat split.
Qed.

(** *** The registry *)

(** The selection the specification enumerates, by the name CPython gives
    the type of each kind of object (an instance of a user class has the
    name of its class and is not listed). *)
Definition spec_variant (tn : string) : option InspectorClass :=
  if String.eqb tn "module" then Some ModuleInspector
  else if String.eqb tn "type" then Some ClassInspector
  else if String.eqb tn "function" then Some FunctionInspector
  else if String.eqb tn "method" then Some FunctionInspector
  else if String.eqb tn "code" then Some CodeInspector
  else if String.eqb tn "complex" then Some ComplexInspector
  else if String.eqb tn "dict" then Some DictionaryInspector
  else if String.eqb tn "list" then Some SequenceInspector
  else if String.eqb tn "tuple" then Some SequenceInspector
  else if String.eqb tn "str" then Some SequenceInspector
  else if String.eqb tn "slice" then Some SliceInspector
  else None.

(** The selection the registry makes for those kinds whose entry it
    holds: as [spec_variant], but complex numbers and classes are mapped
    to the base class by the entries ['ComplexType'] and ['TypeType'], and
    strings (key ['StrType']) are not listed. *)
Definition registered_variant (tn : string) : option InspectorClass :=
  if String.eqb tn "module" then Some ModuleInspector
  else if String.eqb tn "type" then Some Inspector
  else if String.eqb tn "function" then Some FunctionInspector
  else if String.eqb tn "method" then Some FunctionInspector
  else if String.eqb tn "code" then Some CodeInspector
  else if String.eqb tn "complex" then Some Inspector
  else if String.eqb tn "dict" then Some DictionaryInspector
  else if String.eqb tn "list" then Some SequenceInspector
  else if String.eqb tn "tuple" then Some SequenceInspector
  else if String.eqb tn "slice" then Some SliceInspector
  else None.

Lemma inspectorFor_registered (o : pyobj) (name : string) (C : InspectorClass) :
  assoc (capitalize (type_name o) ++ "Type") _InspectorMap = Some name ->
  globals name = Some C ->
  inspectorFor o = ([], new_inspector C o).
Proof.
  intros Ha Hg. unfold inspectorFor. rewrite Ha, Hg. reflexivity.
Qed.

(** Every class name the registry holds is a class of the module, so the
    lookup in [globals()] never fails. *)
Lemma registry_names_defined :
  forallb (fun kv => match globals (snd kv) with Some _ => true | None => false end)
    _InspectorMap = true.
Proof. reflexivity. Qed.

(** The base class builds an inspector for any object whose [dir]
    listing is a list of names. *)
Lemma new_base_inspector_of_names (o : pyobj) (names : list string) :
  py_dir o = Ok (map of_str names) ->
  new_inspector Inspector o =
    Ok (mkInspector Inspector o 0 (map of_str (sort_str names))
          ("up" :: map py_str (map of_str (sort_str names)))).
Proof.
  intros Hd. rewrite new_inspector_eq. unfold namedParts. simpl.
  rewrite Hd. simpl. rewrite sorted_strs. simpl. rewrite app_nil_r.
  reflexivity.
Qed.

(** An object whose key the registry lacks gets the diagnostic and the
    base class. *)
Lemma inspectorFor_unregistered (o : pyobj) :
  assoc (capitalize (type_name o) ++ "Type") _InspectorMap = None ->
  inspectorFor o =
    (["Can't find an inspector for " ++ capitalize (type_name o) ++ "Type"],
     new_inspector Inspector o).
Proof.
  intros Ha. unfold inspectorFor. rewrite Ha. reflexivity.
Qed.

(** C2, amended. By the key [capitalize(type name) + 'Type'], modules get
    [ModuleInspector], plain functions and bound methods
    [FunctionInspector], code objects [CodeInspector], dictionaries
    [DictionaryInspector], lists and tuples [SequenceInspector], slices
    [SliceInspector], and complex numbers and classes the base
    [Inspector]; no diagnostic is printed, and the inspector built has
    that class. *)
Theorem inspectorFor_selects_registered_variant (o : pyobj) (C : InspectorClass) :
  registered_variant (type_name o) = Some C ->
  inspectorFor o = ([], new_inspector C o) /\
  (forall self, new_inspector C o = Ok self -> cls self = C /\ object self = o).
Proof.
  intros H. split.
  - unfold registered_variant in H.
    repeat match type of H with
    | (if String.eqb ?a ?b then _ else _) = _ =>
        destruct (String.eqb_spec a b) as [E|_];
        [ injection H as <-; unfold inspectorFor; rewrite E; reflexivity | ]
    end.
    discriminate.
  - intros self Hs. destruct (new_inspector_cls _ _ _ Hs) as (? & ? & _).
    split; assumption.
Qed.

End InspectorFacts.

(** ** Properties of the windows *)

Section WindowFacts.
Context {R : PyRuntime}.

(** The window a refresh leaves when the top inspector is [i] and its
    title is [s]: the list shows the part names of [i] with its remembered
    index selected, and the value text shows that part. *)
Definition refreshed (w : Window) (i : InspectorObj) (s : string)
  : Window * result unit :=
  let sel := select_set (List.length (partNames i)) (lastPartNumber i) [] in
  let n := match sel with
           | [] => 0
           | n :: _ => n
           end in
  let stack := (removelast (inspectors w) ++ [set_lastPartNumber n i])%list in
  match snd (stringForPartNumber n i) with
  | Ok text =>
      (mkWindow stack ("Inspecting: " ++ s) (partNames i) sel text
         (commandText w), Ok tt)
  | Raise e =>
      (mkWindow stack ("Inspecting: " ++ s) (partNames i) sel (valueText w)
         (commandText w), Raise e)
  end.

Lemma skeleton_set_lastPartNumber (n : Z) (i : InspectorObj) :
  skeleton (set_lastPartNumber n i) = skeleton i.
Proof. reflexivity. Qed.

Lemma py_index_last {A : Type} (l0 : list A) (a : A) :
  py_index (l0 ++ [a]) (Z.of_nat (List.length (l0 ++ [a])) - 1) = Ok a.
Proof.
  destruct (py_index_in_range (l0 ++ [a]) (Z.of_nat (List.length (l0 ++ [a])) - 1))
    as (b & Hnth & Hidx).
  - rewrite length_app. simpl. lia.
  - rewrite Hidx. f_equal.
    rewrite length_app in Hnth. simpl in Hnth.
    replace (Z.to_nat (Z.of_nat (List.length l0 + 1) - 1)) with (List.length l0) in Hnth by lia.
    rewrite nth_error_app2 in Hnth by lia.
    rewrite Nat.sub_diag in Hnth. simpl in Hnth. congruence.
Qed.

Lemma stack_cases (l : list InspectorObj) :
  l = [] \/ exists l0 i, l = (l0 ++ [i])%list.
Proof.
  destruct l as [|a l]; [left; reflexivity|right].
  destruct (@exists_last _ (a :: l)) as (l0 & i & E); [discriminate|].
  exists l0, i. exact E.
Qed.

Lemma topInspector_empty (w : Window) :
  inspectors w = [] -> topInspector w = Raise IndexError.
Proof. unfold topInspector. intros ->. reflexivity. Qed.

Lemma topInspector_last (w : Window) (l0 : list InspectorObj) (i : InspectorObj) :
  inspectors w = (l0 ++ [i])%list -> topInspector w = Ok i.
Proof. unfold topInspector. intros ->. apply py_index_last. Qed.

Lemma topInspector_inv (w : Window) (i : InspectorObj) :
  topInspector w = Ok i ->
  inspectors w = (removelast (inspectors w) ++ [i])%list.
Proof.
  intros H. destruct (stack_cases (inspectors w)) as [E|(l0 & j & E)].
  - rewrite (topInspector_empty _ E) in H. discriminate.
  - rewrite (topInspector_last _ _ _ E) in H. injection H as <-.
    rewrite E at 1. rewrite E, removelast_last. reflexivity.
Qed.

Lemma on_top_eq {A : Type} (m : ST InspectorObj A) (w : Window) :
  on_top m w =
    match topInspector w with
    | Ok i => (set_inspectors (removelast (inspectors w) ++ [fst (m i)]) w, snd (m i))
    | Raise e => (w, Raise e)
    end.
Proof.
  unfold on_top. destruct (topInspector w); [|reflexivity].
  destruct (m a). reflexivity.
Qed.

Lemma update_eq (w : Window) :
  update w =
    match topInspector w with
    | Raise e => (w, Raise e)
    | Ok i =>
        match title i with
        | Raise e => (w, Raise e)
        | Ok t =>
            match as_str t with
            | None => (w, Raise TypeError)
            | Some s => refreshed w i s
            end
        end
    end.
Proof.
  unfold update, setTitle, fillList, listSelectionChanged, bind, get, lift,
    modify, throw.
  destruct (topInspector w) as [i|e] eqn:Et; [|reflexivity].
  destruct (title i) as [t|e]; [|reflexivity].
  destruct (as_str t) as [s|]; [|reflexivity].
  assert (Et' : forall a b c d e0,
            topInspector (mkWindow (inspectors w) a b c d e0) = Ok i)
    by (intros; exact Et).
  unfold set_listbox, set_top_title, set_valueText.
  cbn [inspectors top_title listItems curselection valueText commandText].
  rewrite Et'.
  cbn [inspectors top_title listItems curselection valueText commandText].
  rewrite Et'. rewrite on_top_eq, Et'.
  unfold refreshed, selectedIndex, set_inspectors, getLastPartNumber.
  cbn [inspectors top_title listItems curselection valueText commandText
       select_clear filter app].
  destruct (select_set _ (lastPartNumber i) []) as [|n sel]; cbv beta iota;
    rewrite stringForPartNumber_state;
    destruct (snd (stringForPartNumber _ i)); reflexivity.
Qed.

Lemma replace_top_skeleton (w : Window) (i i' : InspectorObj) :
  topInspector w = Ok i ->
  skeleton i' = skeleton i ->
  map skeleton (removelast (inspectors w) ++ [i']) = map skeleton (inspectors w).
Proof.
  intros Ht Hs. rewrite (topInspector_inv _ _ Ht) at 2.
  rewrite !map_app. simpl. rewrite Hs. reflexivity.
Qed.

Lemma replace_top_same (w : Window) (i : InspectorObj) :
  topInspector w = Ok i ->
  set_inspectors (removelast (inspectors w) ++ [i]) w = w.
Proof.
  intros Ht. unfold set_inspectors. rewrite <- (topInspector_inv _ _ Ht).
  destruct w; reflexivity.
Qed.

Lemma inspectorForSelectedPart_eq (w : Window) :
  inspectorForSelectedPart w =
    match selectedIndex w with
    | None => (w, Ok None)
    | Some n =>
        match topInspector w with
        | Raise e => (w, Raise e)
        | Ok i =>
            (set_inspectors (removelast (inspectors w) ++ [set_lastPartNumber n i]) w,
             rbind (snd (partNumber n i)) (fun part =>
             rbind (snd (inspectorFor part)) (fun inspector =>
             Ok (Some inspector))))
        end
    end.
Proof.
  unfold inspectorForSelectedPart, bind, get, lift, ret.
  destruct (selectedIndex w) as [n|]; [|reflexivity].
  rewrite on_top_eq. destruct (topInspector w) as [i|e]; [|reflexivity].
  rewrite partNumber_state.
  destruct (snd (partNumber n i)) as [part|e]; [|reflexivity].
  simpl. destruct (snd (inspectorFor part)); reflexivity.
Qed.

Lemma inspectorForSelectedPart_frame (w : Window) :
  let w' := fst (inspectorForSelectedPart w) in
  map skeleton (inspectors w') = map skeleton (inspectors w) /\
  top_title w' = top_title w /\ listItems w' = listItems w /\
  curselection w' = curselection w /\ valueText w' = valueText w /\
  commandText w' = commandText w.
Proof.
  rewrite inspectorForSelectedPart_eq.
  destruct (selectedIndex w) as [n|]; [|repeat split].
  destruct (topInspector w) as [i|e] eqn:Et; [|repeat split].
  simpl. repeat split.
  apply (replace_top_skeleton _ _ _ Et), skeleton_set_lastPartNumber.
Qed.

Lemma update_frame (w : Window) :
  map skeleton (inspectors (fst (update w))) = map skeleton (inspectors w) /\
  commandText (fst (update w)) = commandText w.
Proof.
  rewrite update_eq.
  destruct (topInspector w) as [i|e] eqn:Et; [|split; reflexivity].
  destruct (title i) as [t|e]; [|split; reflexivity].
  destruct (as_str t) as [s|]; [|split; reflexivity].
  unfold refreshed.
  destruct (snd (stringForPartNumber _ i)); simpl; (split; [|reflexivity]);
    apply (replace_top_skeleton _ _ _ Et), skeleton_set_lastPartNumber.
Qed.

Lemma listSelectionChanged_eq (w : Window) :
  listSelectionChanged w =
    let n := match selectedIndex w with
             | Some n => n
             | None => 0
             end in
    match topInspector w with
    | Raise e => (w, Raise e)
    | Ok i =>
        let w' := set_inspectors (removelast (inspectors w) ++ [set_lastPartNumber n i]) w in
        match snd (stringForPartNumber n i) with
        | Ok text => (set_valueText text w', Ok tt)
        | Raise e => (w', Raise e)
        end
    end.
Proof.
  unfold listSelectionChanged, bind, get, modify.
  rewrite on_top_eq. destruct (topInspector w) as [i|e]; [|reflexivity].
  rewrite stringForPartNumber_state.
  destruct (snd (stringForPartNumber _ i)); reflexivity.
Qed.

Lemma listSelectionChanged_frame (w : Window) :
  map skeleton (inspectors (fst (listSelectionChanged w))) =
    map skeleton (inspectors w) /\
  curselection (fst (listSelectionChanged w)) = curselection w.
Proof.
  rewrite listSelectionChanged_eq. cbv zeta.
  destruct (topInspector w) as [i|e] eqn:Et; [|split; reflexivity].
  destruct (snd (stringForPartNumber _ i)); simpl; (split; [|reflexivity]);
    apply (replace_top_skeleton _ _ _ Et), skeleton_set_lastPartNumber.
Qed.

Lemma pop_eq (w : Window) :
  pop w =
    if (1 <? List.length (inspectors w))%nat
    then update (set_inspectors (removelast (inspectors w)) w)
    else (w, Ok tt).
Proof.
  unfold pop, bind, get, modify, ret.
  destruct (1 <? List.length (inspectors w))%nat; reflexivity.
Qed.

Lemma dive_eq (w : Window) :
  dive w =
    match inspectorForSelectedPart w with
    | (w', Ok (Some inspector)) =>
        update (set_inspectors (inspectors w' ++ [inspector]) w')
    | (w', Ok None) => (w', Ok tt)
    | (w', Raise e) => (w', Raise e)
    end.
Proof.
  unfold dive, bind, modify, ret.
  destruct (inspectorForSelectedPart w) as [w' [[j|]|e]]; reflexivity.
Qed.

Lemma pop_stack (w : Window) :
  map skeleton (inspectors (fst (pop w))) =
    if (1 <? List.length (inspectors w))%nat
    then map skeleton (removelast (inspectors w))
    else map skeleton (inspectors w).
Proof.
  rewrite pop_eq. destruct (1 <? List.length (inspectors w))%nat; [|reflexivity].
  apply update_frame.
Qed.

Lemma dive_stack (w : Window) :
  map skeleton (inspectors (fst (dive w))) = map skeleton (inspectors w) \/
  exists inspector,
    map skeleton (inspectors (fst (dive w))) =
      (map skeleton (inspectors w) ++ [skeleton inspector])%list.
Proof.
  rewrite dive_eq.
  pose proof (inspectorForSelectedPart_frame w) as (Hs & _). cbv zeta in Hs.
  destruct (inspectorForSelectedPart w) as [w' [[j|]|e]]; simpl in *.
  - right. exists j.
    destruct (update_frame (set_inspectors (inspectors w' ++ [j]) w')) as (Hu & _).
    rewrite Hu. simpl. rewrite map_app, Hs. reflexivity.
  - left. exact Hs.
  - left. exact Hs.
Qed.

Lemma inspect_state (w : Window) :
  fst (InspectorWindow_inspect w) = fst (inspectorForSelectedPart w).
Proof.
  unfold InspectorWindow_inspect, bind, ret, throw.
  destruct (inspectorForSelectedPart w) as [w' [[j|]|e]]; try reflexivity.
  destruct (open (InspectorWindow_new j)) as [nw [u|e]]; reflexivity.
Qed.

Lemma skeleton_nonempty (l l' : list InspectorObj) :
  map skeleton l' = map skeleton l -> l <> [] -> l' <> [].
Proof.
  intros H Hl ->. destruct l; [congruence|discriminate].
Qed.

Lemma update_below_top (w : Window) :
  removelast (inspectors (fst (update w))) = removelast (inspectors w).
Proof.
  rewrite update_eq.
  destruct (topInspector w) as [i|e] eqn:Et; [|reflexivity].
  destruct (title i) as [t|e]; [|reflexivity].
  destruct (as_str t) as [s|]; [|reflexivity].
  unfold refreshed.
  destruct (snd (stringForPartNumber _ i)); simpl; apply removelast_last.
Qed.

Lemma update_ok_inv (w w' : Window) :
  update w = (w', Ok tt) ->
  exists i t s text,
    topInspector w = Ok i /\ title i = Ok t /\ as_str t = Some s /\
    let sel := select_set (List.length (partNames i)) (lastPartNumber i) [] in
    let n := match sel with
             | [] => 0
             | n :: _ => n
             end in
    snd (stringForPartNumber n i) = Ok text /\
    w' = mkWindow (removelast (inspectors w) ++ [set_lastPartNumber n i])
           ("Inspecting: " ++ s) (partNames i) sel text (commandText w).
Proof.
  rewrite update_eq. intros H.
  destruct (topInspector w) as [i|e] eqn:Et; [|discriminate].
  destruct (title i) as [t|e] eqn:Etitle; [|discriminate].
  destruct (as_str t) as [s|] eqn:Es; [|discriminate].
  unfold refreshed in H.
  destruct (snd (stringForPartNumber _ i)) as [text|e] eqn:Ex; [|discriminate].
  injection H as <-.
  exists i, t, s, text. repeat split; assumption.
Qed.

(** A refresh that succeeds reads the stack and the command text only. *)
Lemma update_ok_ext (w v w' : Window) :
  inspectors v = inspectors w ->
  commandText v = commandText w ->
  update w = (w', Ok tt) ->
  update v = (w', Ok tt).
Proof.
  intros Hi Hc H. rewrite update_eq in *.
  assert (Et : topInspector v = topInspector w)
    by (unfold topInspector; rewrite Hi; reflexivity).
  rewrite Et. destruct (topInspector w) as [i|e]; [|discriminate].
  destruct (title i) as [t|e]; [|discriminate].
  destruct (as_str t) as [s|]; [|discriminate].
  unfold refreshed in *. rewrite Hi, Hc.
  destruct (snd (stringForPartNumber _ i)); [exact H|discriminate].
Qed.

(** C6. The stack holds one inspector at construction; a refresh, a dive,
    a pop, an Inspect and a selection change leave a non-empty stack
    non-empty; [pop] at depth 1 changes nothing; [pop] at a greater depth
    removes the top inspector and no other (the inspectors that remain are
    the same, and those below the new top are untouched). *)
Theorem stack_never_empty :
  (forall i, inspectors (InspectorWindow_new i) = [i]) /\
  (forall w, inspectors w <> [] ->
     inspectors (fst (update w)) <> [] /\
     inspectors (fst (dive w)) <> [] /\
     inspectors (fst (pop w)) <> [] /\
     inspectors (fst (InspectorWindow_inspect w)) <> [] /\
     inspectors (fst (listSelectionChanged w)) <> []) /\
  (forall w, List.length (inspectors w) = 1%nat -> pop w = (w, Ok tt)) /\
  (forall w, (1 < List.length (inspectors w))%nat ->
     map skeleton (inspectors (fst (pop w))) =
       map skeleton (removelast (inspectors w)) /\
     removelast (inspectors (fst (pop w))) =
       removelast (removelast (inspectors w)) /\
     List.length (inspectors (fst (pop w))) = pred (List.length (inspectors w))).
Proof.
  split; [reflexivity|]. split; [|split].
  - intros w Hw. repeat split.
    + eapply skeleton_nonempty; [apply update_frame|exact Hw].
    + destruct (dive_stack w) as [H|(j & H)].
      * eapply skeleton_nonempty; [exact H|exact Hw].
      * intros E. rewrite E in H. simpl in H.
        symmetry in H. apply app_eq_nil in H. destruct H; discriminate.
    + pose proof (pop_stack w) as H.
      destruct (1 <? List.length (inspectors w))%nat eqn:E.
      * intros E'. rewrite E' in H. simpl in H. symmetry in H.
        apply map_eq_nil in H. apply Nat.ltb_lt in E.
        destruct (inspectors w) as [|a [|b l]]; simpl in *; try lia; discriminate.
      * eapply skeleton_nonempty; [exact H|exact Hw].
    + rewrite inspect_state.
      eapply skeleton_nonempty; [apply inspectorForSelectedPart_frame|exact Hw].
    + eapply skeleton_nonempty; [apply listSelectionChanged_frame|exact Hw].
  - intros w Hw. rewrite pop_eq, Hw. reflexivity.
  - intros w Hw.
    assert (Hs : map skeleton (inspectors (fst (pop w))) =
                 map skeleton (removelast (inspectors w))).
    { rewrite pop_stack. apply Nat.ltb_lt in Hw. rewrite Hw. reflexivity. }
    split; [exact Hs|]. split.
    + rewrite pop_eq. apply Nat.ltb_lt in Hw. rewrite Hw.
      rewrite update_below_top. reflexivity.
    + apply (f_equal (@List.length _)) in Hs. rewrite !length_map in Hs.
      rewrite Hs. destruct (inspectors w) as [|a l]; [reflexivity|].
      rewrite removelast_firstn_len, length_firstn. simpl. lia.
Qed.

(** C8. Activating the list entry with index 0 selected performs Pop, and
    with any other index selected performs Dive; so with index 0 selected
    the activation pushes nothing: the stack never grows. *)
Theorem popOrDive_pops_on_self (w : Window) (n : Z) :
  selectedIndex w = Some n ->
  popOrDive w = (if n =? 0 then pop w else dive w) /\
  (n = 0 ->
   (List.length (inspectors (fst (popOrDive w))) <= List.length (inspectors w))%nat).
Proof.
  intros Hsel.
  assert (E : popOrDive w = if n =? 0 then pop w else dive w).
  { unfold popOrDive, bind, get. rewrite Hsel. destruct n; reflexivity. }
  split; [exact E|].
  intros ->. rewrite E. simpl.
  pose proof (pop_stack w) as H.
  apply (f_equal (@List.length _)) in H. rewrite length_map in H. rewrite H.
  destruct (1 <? List.length (inspectors w))%nat; rewrite length_map; [|lia].
  destruct (inspectors w) as [|a l]; [simpl; lia|].
  rewrite removelast_firstn_len, length_firstn. simpl. lia.
Qed.


(** What a Dive that pushes leaves: part [n] of the old top resolved and
    recorded, one inspector above it, the command text untouched. *)
Lemma dive_pushed_inv (w : Window) (n : Z) :
  selectedIndex w = Some n ->
  List.length (inspectors (fst (dive w))) = S (List.length (inspectors w)) ->
  exists i j,
    topInspector w = Ok i /\
    inspectors (fst (dive w)) =
      ((removelast (inspectors w) ++ [set_lastPartNumber n i]) ++ [j])%list /\
    commandText (fst (dive w)) = commandText w.
Proof.
  intros Hs Hlen. rewrite dive_eq, inspectorForSelectedPart_eq, Hs in *.
  destruct (topInspector w) as [i|e] eqn:Et; [|simpl in Hlen; lia].
  assert (Hl : List.length (removelast (inspectors w) ++ [set_lastPartNumber n i]) =
               List.length (inspectors w)).
  { rewrite (topInspector_inv _ _ Et) at 2. rewrite !length_app. reflexivity. }
  destruct (snd (partNumber n i)) as [part|e]; simpl in *; [|lia].
  destruct (snd (inspectorFor part)) as [j|e]; simpl in *; [|lia].
  match goal with |- context [update ?v] => set (pushed := v) in * end.
  pose proof (update_below_top pushed) as Hb.
  pose proof (update_frame pushed) as (Hsk & Hc).
  apply (f_equal (@List.length _)) in Hsk. rewrite !length_map in Hsk.
  assert (Hne : inspectors (fst (update pushed)) <> []).
  { intros E. rewrite E in Hsk. simpl in Hsk. rewrite length_app in Hsk.
    simpl in Hsk. lia. }
  destruct (exists_last Hne) as (l0 & j' & E).
  rewrite E in Hb. simpl in Hb. rewrite !removelast_last in Hb. subst l0.
  exists i, j'. split; [reflexivity|]. split; [exact E|exact Hc].
Qed.

(** C7, amended. In a window with a part selected, when Dive pushes an
    inspector (its own refresh raising or not), Dive followed by Pop gives
    back the window exactly as it was (the same stack of inspectors, the
    same title, the same list and selection, the same value text) if and
    only if the window displayed its state before the dive, that is, a
    refresh would have changed nothing. *)
Theorem dive_then_pop_restores (w : Window) (n : Z) :
  selectedIndex w = Some n ->
  List.length (inspectors (fst (dive w))) = S (List.length (inspectors w)) ->
  pop (fst (dive w)) = (w, Ok tt) <-> update w = (w, Ok tt).
Proof.
  intros Hsel Hlen.
  destruct (dive_pushed_inv w n Hsel Hlen) as (i & j & Ht & Hst & Hc).
  assert (Hpop : pop (fst (dive w)) =
                 update (set_inspectors
                           (removelast (inspectors w) ++ [set_lastPartNumber n i])
                           (fst (dive w)))).
  { rewrite pop_eq.
    assert (E : (1 <? List.length (inspectors (fst (dive w))))%nat = true).
    { rewrite Hlen. apply Nat.ltb_lt.
      rewrite (topInspector_inv _ _ Ht), length_app. simpl. lia. }
    rewrite E, Hst, removelast_last. reflexivity. }
  rewrite Hpop.
  set (v := set_inspectors (removelast (inspectors w) ++ [set_lastPartNumber n i])
              (fst (dive w))).
  assert (Htv : topInspector v = Ok (set_lastPartNumber n i))
    by (apply topInspector_last with (l0 := removelast (inspectors w)); reflexivity).
  split; intros Hup.
  - (* the window Pop leaves is one a refresh produced, with [n] selected *)
    destruct (update_ok_inv _ _ Hup) as (i0 & t & s & text & Ht0 & _ & _ & Hw).
    rewrite Htv in Ht0. injection Ht0 as <-.
    cbv zeta in Hw. destruct Hw as (_ & Hw).
    assert (Hcur : curselection w =
              select_set (List.length (partNames (set_lastPartNumber n i)))
                (lastPartNumber (set_lastPartNumber n i)) [])
      by (rewrite Hw at 1; reflexivity).
    unfold selectedIndex in Hsel. rewrite Hcur in Hsel.
    unfold select_set in Hsel, Hw. simpl lastPartNumber in Hsel, Hw.
    destruct ((0 <=? n) && (n <? _))%bool; [|discriminate].
    simpl in Hw. rewrite removelast_last in Hw.
    apply (update_ok_ext v); [| |exact Hup].
    + rewrite Hw at 1. reflexivity.
    + rewrite Hw at 1. reflexivity.
  - (* a displayed window has [n] recorded already, and Pop refreshes it *)
    destruct (update_ok_inv _ _ Hup) as (i0 & t & s & text & Ht0 & _ & _ & Hw).
    rewrite Ht in Ht0. injection Ht0 as <-.
    cbv zeta in Hw. destruct Hw as (_ & Hw).
    assert (Hcur : curselection w =
              select_set (List.length (partNames i)) (lastPartNumber i) [])
      by (rewrite Hw at 1; reflexivity).
    assert (Hstack : inspectors w =
              (removelast (inspectors w) ++
               [set_lastPartNumber
                  match select_set (List.length (partNames i)) (lastPartNumber i) [] with
                  | [] => 0
                  | m :: _ => m
                  end i])%list)
      by (rewrite Hw at 1; reflexivity).
    unfold selectedIndex in Hsel. rewrite Hcur in Hsel.
    destruct (select_set _ (lastPartNumber i) []) as [|m sel]; [discriminate|].
    injection Hsel as ->.
    apply (update_ok_ext w); [| |exact Hup].
    + exact (eq_sym Hstack).
    + exact Hc.
Qed.

Lemma evalCommand_eq (w : Window) :
  evalCommand w =
    match after_last_prompt (commandText w) None with
    | None => (w, Ok tt)
    | Some rest =>
        if String.eqb (to_lineend rest) EmptyString then (w, Ok tt)
        else
          match topInspector w with
          | Raise e => (w, Raise e)
          | Ok i =>
              match snd (selectedPart i) with
              | Raise e => (w, Raise e)
              | Ok this =>
                  match py_eval (to_lineend rest)
                          [("this", this); ("object", object i)] with
                  | Ok result =>
                      (set_commandText
                         (commandText w ++ py_repr result ++ newline ++ ">>> ") w,
                       Ok tt)
                  | Raise e => (w, Raise e)
                  end
              end
          end
    end.
Proof.
  unfold evalCommand, InspectorWindow_selectedPart, bind, get, lift, modify, ret.
  destruct (after_last_prompt (commandText w) None) as [rest|]; [|reflexivity].
  destruct (String.eqb (to_lineend rest) EmptyString); [reflexivity|].
  rewrite on_top_eq.
  destruct (topInspector w) as [i|e] eqn:Et; [|reflexivity].
  rewrite selectedPart_state, (replace_top_same _ _ Et).
  destruct (snd (selectedPart i)) as [this|e]; [|reflexivity].
  rewrite Et.
  destruct (py_eval _ _); reflexivity.
Qed.

(** A failed evaluation, whatever failed, leaves the window as it was. *)
Lemma evalCommand_failure_frame (w : Window) (e : exn) :
  snd (evalCommand w) = Raise e -> evalCommand w = (w, Raise e).
Proof.
  rewrite evalCommand_eq.
  destruct (after_last_prompt (commandText w) None) as [rest|]; [|discriminate].
  destruct (String.eqb (to_lineend rest) EmptyString); [discriminate|].
  destruct (topInspector w) as [i|e0]; [|simpl; congruence].
  destruct (snd (selectedPart i)) as [this|e0]; [|simpl; congruence].
  destruct (py_eval _ _); [discriminate|simpl; congruence].
Qed.

(** C5, amended. An error raised while evaluating the command line is not
    caught: [evalCommand] raises it to its caller. Nothing is written to
    the transcript, and the window (stack, selection, last-selected
    indices, widgets) is left exactly as it was. *)
Theorem evalCommand_error_propagates (w : Window) (rest : string)
    (i : InspectorObj) (this : pyobj) (e : exn) :
  after_last_prompt (commandText w) None = Some rest ->
  to_lineend rest <> EmptyString ->
  topInspector w = Ok i ->
  snd (selectedPart i) = Ok this ->
  py_eval (to_lineend rest) [("this", this); ("object", object i)] = Raise e ->
  evalCommand w = (w, Raise e).
Proof.
  intros Hp Hc Ht Hs He. rewrite evalCommand_eq, Hp.
  apply String.eqb_neq in Hc. rewrite Hc, Ht, Hs, He. reflexivity.
Qed.

End WindowFacts.

(** ** Examples in the concrete runtime *)

Module Examples.
Import Demo.

(** The inspector [inspectorFor] builds for [foo], whose type name has no
    entry in the registry. *)
Definition foo_inspector : InspectorObj :=
  mkInspector Inspector foo 0 [PStr "x"; PStr "y"] ["up"; "x"; "y"].

(** The inspector it builds for the dictionary [{'a': 1, 'b': 2}]. *)
Definition d_ab_inspector : InspectorObj :=
  mkInspector DictionaryInspector d_ab 0
    [PStr "__class__"; PStr "a"; PStr "b"] ["up"; "__class__"; "a"; "b"].

(** The inspector it builds for the list [[10, 20, 30]]. *)
Definition seq3_inspector : InspectorObj :=
  mkInspector SequenceInspector seq3 0
    [PStr "__class__"; PInt 0; PInt 1; PInt 2]
    ["up"; "__class__"; "0"; "1"; "2"].

(** The window [inspect(foo)] opens. *)
Definition foo_window : Window :=
  mkWindow [foo_inspector] "Inspecting: Foo" ["up"; "x"; "y"] [0]
    "<Foo object>" ">>> ".

(** The same window once the user has selected the part [y]. *)
Definition foo_window_y : Window :=
  mkWindow [set_lastPartNumber 2 foo_inspector] "Inspecting: Foo"
    ["up"; "x"; "y"] [2] "{'a': 1, 'b': 2}" ">>> ".

(** That window after a dive into [y]. *)
Definition foo_window_dived : Window :=
  mkWindow [set_lastPartNumber 2 foo_inspector; d_ab_inspector]
    "Inspecting: Dict" ["up"; "__class__"; "a"; "b"] [0]
    "{'a': 1, 'b': 2}" ">>> ".

(** A window with a command line typed at its prompt. *)
Definition typed (command : string) (w : Window) : Window :=
  set_commandText (commandText w ++ command ++ newline) w.

Example inspect_foo :
  inspect foo = (["Can't find an inspector for FooType"], Ok foo_window).
Proof. reflexivity. Qed.

Example select_y :
  listSelectionChanged (set_listbox (listItems foo_window) [2] foo_window) =
    (foo_window_y, Ok tt).
Proof. reflexivity. Qed.

Example dictionary_parts :
  inspectorFor d_ab = ([], Ok d_ab_inspector) /\
  snd (partNumber 0 d_ab_inspector) = Ok d_ab /\
  snd (partNumber 2 d_ab_inspector) = Ok (PInt 1) /\
  snd (partNumber 3 d_ab_inspector) = Ok (PInt 2).
Proof. repeat split. Qed.

Example sequence_parts :
  inspectorFor seq3 = ([], Ok seq3_inspector) /\
  snd (partNumber 2 seq3_inspector) = Ok (PInt 10) /\
  snd (partNumber 3 seq3_inspector) = Ok (PInt 20) /\
  snd (partNumber 4 seq3_inspector) = Ok (PInt 30) /\
  partNumber 5 seq3_inspector =
    (set_lastPartNumber 5 seq3_inspector, Raise IndexError).
Proof. repeat split. Qed.

Example eval_this_and_object :
  evalCommand (typed "this" foo_window_y) =
    (set_commandText
       (">>> this" ++ newline ++ "{'a': 1, 'b': 2}" ++ newline ++ ">>> ")
       foo_window_y, Ok tt) /\
  evalCommand (typed "object" foo_window_y) =
    (set_commandText
       (">>> object" ++ newline ++ "<Foo object>" ++ newline ++ ">>> ")
       foo_window_y, Ok tt).
Proof. split; reflexivity. Qed.

(** C1. The dictionary [{1: 'a', 'b': 2}] has the registered key
    ['DictType'], so no fallback applies; building its
    [DictionaryInspector] sorts the keys [1] and ['b'], which raises
    [TypeError], and [inspectorFor] raises it: no inspector is returned. *)
Theorem inspectorFor_raises_on_mixed_keys :
  assoc (capitalize (type_name mixed_keys) ++ "Type") _InspectorMap =
    Some "DictionaryInspector" /\
  py_iter mixed_keys = Ok [PInt 1; PStr "b"] /\
  py_sorted [PInt 1; PStr "b"] = Raise TypeError /\
  inspectorFor mixed_keys = ([], Raise TypeError).
Proof. repeat split. Qed.

(** C2 as stated fails: a complex number has the registered key
    ['ComplexType'], which the registry maps to the base [Inspector], not
    to [ComplexInspector]. *)
Lemma complex_gets_base_inspector :
  spec_variant (type_name a_complex) = Some ComplexInspector /\
  inspectorFor a_complex =
    ([], Ok (mkInspector Inspector a_complex 0 [PStr "imag"; PStr "real"]
               ["up"; "imag"; "real"])) /\
  Inspector <> ComplexInspector.
Proof. repeat split. discriminate. Qed.

Lemma registered_variant_witness :
  registered_variant (type_name d_ab) = Some DictionaryInspector /\
  inspectorFor d_ab = ([], new_inspector DictionaryInspector d_ab) /\
  (forall self, new_inspector DictionaryInspector d_ab = Ok self ->
     cls self = DictionaryInspector /\ object self = d_ab).
Proof.
  split; [reflexivity|].
  apply (inspectorFor_selects_registered_variant (R := runtime) d_ab DictionaryInspector).
  reflexivity.
Defined.

Lemma partNumber_in_range_witness :
  0 <= 2 <= Z.of_nat (List.length (_partsList d_ab_inspector)) /\
  lastPartNumber (fst (partNumber 2 d_ab_inspector)) = 2 /\
  (2 = 0 -> partNumber 2 d_ab_inspector =
     (set_lastPartNumber 2 d_ab_inspector, Ok (object d_ab_inspector))) /\
  (1 <= 2 ->
   exists entry,
     nth_error (_partsList d_ab_inspector) (Z.to_nat (2 - 1)) = Some entry /\
     partNumber 2 d_ab_inspector =
       (set_lastPartNumber 2 d_ab_inspector, resolve_entry d_ab_inspector entry)).
Proof.
  assert (H : 0 <= 2 <= Z.of_nat (List.length (_partsList d_ab_inspector)))
    by (simpl; lia).
  split; [exact H|].
  exact (partNumber_resolves_in_range (R := runtime) d_ab_inspector 2 H).
Defined.

Lemma parts_fixed_witness :
  new_inspector SequenceInspector seq3 = Ok seq3_inspector /\
  partNames seq3_inspector = "up" :: map py_str (_partsList seq3_inspector) /\
  _partsList seq3_inspector =
    [PStr "__class__"; PInt 0; PInt 1; PInt 2].
Proof.
  assert (H : new_inspector SequenceInspector seq3 = Ok seq3_inspector)
    by reflexivity.
  split; [exact H|].
  split; [|reflexivity].
  exact (proj1 (proj2 (parts_fixed_at_construction (R := runtime) SequenceInspector seq3
                         seq3_inspector H))).
Defined.

(** C5 as stated fails: evaluating [1//0] raises [ZeroDivisionError] out
    of [evalCommand], and the transcript gets no text. *)
Lemma evalCommand_does_not_catch :
  snd (evalCommand (typed "1//0" foo_window)) = Raise ZeroDivisionError /\
  commandText (fst (evalCommand (typed "1//0" foo_window))) = commandText (typed "1//0" foo_window).
Proof. split; reflexivity. Qed.

Lemma evalCommand_error_witness :
  after_last_prompt (commandText (typed "1//0" foo_window)) None = Some ("1//0" ++ newline) /\
  to_lineend ("1//0" ++ newline) <> EmptyString /\
  topInspector (typed "1//0" foo_window) = Ok foo_inspector /\
  snd (selectedPart foo_inspector) = Ok foo /\
  py_eval (to_lineend ("1//0" ++ newline))
    [("this", foo); ("object", object foo_inspector)] = Raise ZeroDivisionError /\
  evalCommand (typed "1//0" foo_window) = (typed "1//0" foo_window, Raise ZeroDivisionError).
Proof.
  assert (Hc : to_lineend ("1//0" ++ newline) <> EmptyString) by discriminate.
  repeat (split; [first [reflexivity | exact Hc]|]).
  exact (evalCommand_error_propagates (R := runtime) (typed "1//0" foo_window) ("1//0" ++ newline)
           foo_inspector foo ZeroDivisionError eq_refl Hc eq_refl eq_refl eq_refl).
Defined.

Lemma dive_then_pop_witness :
  selectedIndex foo_window_y = Some 2 /\
  fst (dive foo_window_y) = foo_window_dived /\
  List.length (inspectors (fst (dive foo_window_y))) =
    S (List.length (inspectors foo_window_y)) /\
  update foo_window_y = (foo_window_y, Ok tt) /\
  pop (fst (dive foo_window_y)) = (foo_window_y, Ok tt).
Proof.
  repeat (split; [reflexivity|]).
  exact (proj2 (dive_then_pop_restores (R := runtime) foo_window_y 2
                  eq_refl eq_refl) eq_refl).
Defined.

Lemma popOrDive_witness :
  selectedIndex foo_window_dived = Some 0 /\
  popOrDive foo_window_dived = pop foo_window_dived /\
  (0 = 0 ->
   (List.length (inspectors (fst (popOrDive foo_window_dived))) <=
    List.length (inspectors foo_window_dived))%nat).
Proof.
  split; [reflexivity|].
  exact (popOrDive_pops_on_self (R := runtime) foo_window_dived 0 eq_refl).
Defined.

(** An instance whose attribute [d] is the dictionary with mixed keys,
    shown one level down from [foo_window_y] with [d] selected. *)
Definition bar : obj := PObject "Bar" [("d", mixed_keys)].

Definition bar_inspector : InspectorObj :=
  mkInspector Inspector bar 1 [PStr "d"] ["up"; "d"].

Definition bar_window : Window :=
  mkWindow [set_lastPartNumber 2 foo_inspector; bar_inspector]
    "Inspecting: Bar" ["up"; "d"] [1] "{1: 'a', 'b': 2}" ">>> ".

(** Here the dive raises before it pushes anything: no inspector can be
    built for the dictionary; the window stays as it was. *)
Example failed_dive_pushes_nothing :
  update bar_window = (bar_window, Ok tt) /\
  dive bar_window = (bar_window, Raise TypeError).
Proof. split; reflexivity. Qed.

(** C7 as stated fails: [bar_window] displays its state and has the part
    [d] selected; Dive raises [TypeError] and pushes nothing, and Pop then
    removes the inspector the window was showing, leaving
    [foo_window_y]. *)
Lemma dive_then_pop_loses_a_level :
  update bar_window = (bar_window, Ok tt) /\
  selectedIndex bar_window = Some 1 /\
  dive bar_window = (bar_window, Raise TypeError) /\
  pop (fst (dive bar_window)) = (foo_window_y, Ok tt) /\
  List.length (inspectors foo_window_y) <> List.length (inspectors bar_window).
Proof. repeat split. discriminate. Qed.

(** An instance of a class named [function] that has no [__name__]: a
    [FunctionInspector] is built for it, but its title raises. *)
Definition nameless : obj := PObject "function" [].

Definition holder : obj := PObject "Holder" [("f", nameless)].

Definition holder_window : Window :=
  mkWindow [mkInspector Inspector holder 1 [PStr "f"] ["up"; "f"]]
    "Inspecting: Holder" ["up"; "f"] [1] "<function object>" ">>> ".

(** A dive can raise after it has pushed: the refresh fails on the new
    inspector's title. Pop still gives the window back. *)
Example dive_raising_after_push_is_undone :
  update holder_window = (holder_window, Ok tt) /\
  snd (dive holder_window) = Raise AttributeError /\
  List.length (inspectors (fst (dive holder_window))) = 2%nat /\
  pop (fst (dive holder_window)) = (holder_window, Ok tt).
Proof. repeat split. Qed.

Lemma stack_never_empty_witness :
  inspectors (InspectorWindow_new foo_inspector) = [foo_inspector] /\
  inspectors (fst (dive foo_window_y)) <> [] /\
  pop foo_window = (foo_window, Ok tt) /\
  map skeleton (inspectors (fst (pop foo_window_dived))) =
    map skeleton (removelast (inspectors foo_window_dived)).
Proof.
  destruct (stack_never_empty (R := runtime)) as (Hnew & Hkeep & Hone & Hpop).
  split; [apply Hnew|]. split; [|split].
  - apply (Hkeep foo_window_y). discriminate.
  - apply Hone. reflexivity.
  - apply (Hpop foo_window_dived). simpl. lia.
Defined.


Lemma partNumber_records_witness :
  snd (partNumber 5 seq3_inspector) = Raise IndexError /\
  lastPartNumber (fst (partNumber 5 seq3_inspector)) = 5.
Proof.
  split; [reflexivity|].
  apply (proj2 (proj2 (partNumber_records_index_before_resolving
                         (R := runtime) seq3_inspector 5)))
    with (e := IndexError).
  reflexivity.
Defined.

End Examples.

(** ** Further properties of the registry and the inspectors *)

Section MoreInspectorFacts.
Context {R : PyRuntime}.

Lemma lower_ascii_not_upper (c : ascii) : is_upper (lower_ascii c) = false.
Proof.
  destruct c as [[] [] [] [] [] [] [] []]; reflexivity.
Qed.

Lemma length_lower_append (s suffix : string) :
  String.length (lower s ++ suffix) = (String.length s + String.length suffix)%nat.
Proof.
  induction s as [|a s IH]; simpl; [reflexivity|].
  rewrite IH. reflexivity.
Qed.

Lemma get_lower_append (s suffix : string) (n : nat) (c : ascii) :
  String.get n (lower s ++ suffix) = Some c ->
  (n < String.length s)%nat ->
  is_upper c = false.
Proof.
  revert n. induction s as [|a s IH]; intros n Hg Hn; simpl in *; [lia|].
  destruct n as [|n].
  - injection Hg as <-. apply lower_ascii_not_upper.
  - apply (IH n Hg). lia.
Qed.

(** In a derived key, no character between the first and the suffix
    ['Type'] is an upper-case letter. *)
Lemma derived_key_tail (tn tail : string) (c0 c : ascii) (n : nat) :
  capitalize tn ++ "Type" = String c0 tail ->
  String.get n tail = Some c ->
  (n + 4 < String.length tail)%nat ->
  is_upper c = false.
Proof.
  intros Hk Hg Hn. destruct tn as [|a s]; simpl in Hk.
  - injection Hk as _ <-. simpl in Hn. lia.
  - injection Hk as _ <-.
    rewrite length_lower_append in Hn. simpl in Hn.
    apply (get_lower_append s "Type" n c Hg). lia.
Qed.

(** X1. [capitalize] lower-cases everything after the first character, so
    the key [inspectorFor] derives is never one of the registry's keys
    with a capital inside the name: the entries ['BuiltinFunctionType'],
    ['BuiltinMethodType'], ['UnboundMethodType'] and ['XRangeType'] are
    selected for no object. *)
Theorem registry_keys_never_derived (o : pyobj) :
  existsb (String.eqb (capitalize (type_name o) ++ "Type"))
    ["BuiltinFunctionType"; "BuiltinMethodType"; "UnboundMethodType";
     "XRangeType"] = false.
Proof.
  assert (Hupper : forall tail c n,
            capitalize (type_name o) ++ "Type" = String "B"%char tail \/
            capitalize (type_name o) ++ "Type" = String "U"%char tail \/
            capitalize (type_name o) ++ "Type" = String "X"%char tail ->
            String.get n tail = Some c ->
            (n + 4 < String.length tail)%nat ->
            is_upper c = true -> False).
  { intros tail c n [H|[H|H]] Hg Hn Hu;
      rewrite (derived_key_tail _ _ _ _ _ H Hg Hn) in Hu; discriminate. }
  apply not_true_is_false. intros Hex.
  apply existsb_exists in Hex. destruct Hex as (k & Hin & Hk).
  apply String.eqb_eq in Hk. subst k.
  destruct Hin as [H|[H|[H|[H|[]]]]]; symmetry in H.
  - apply (Hupper _ "F"%char 6%nat (or_introl H)); [reflexivity|simpl; lia|reflexivity].
  - apply (Hupper _ "M"%char 6%nat (or_introl H)); [reflexivity|simpl; lia|reflexivity].
  - apply (Hupper _ "M"%char 6%nat (or_intror (or_introl H)));
      [reflexivity|simpl; lia|reflexivity].
  - apply (Hupper _ "R"%char 0%nat (or_intror (or_intror H)));
      [reflexivity|simpl; lia|reflexivity].
Qed.

(** A type name of ASCII characters only, for which [capitalize] is
    [str.capitalize]. *)
Definition ascii_only (s : string) : bool :=
  forallb (fun c => (nat_of_ascii c <? 128)%nat) (list_ascii_of_string s).

Lemma namedParts_strings (C : InspectorClass) (o : pyobj) (names : list string) :
  C <> ClassInspector ->
  py_dir o = Ok (map of_str names) ->
  exists named, namedParts (mkInspector C o 0 [] []) = Ok (map of_str named).
Proof.
  intros HC Hd. unfold namedParts. simpl. rewrite Hd. simpl.
  destruct C; try congruence;
    first [ exists names; reflexivity
          | exists ["__dict__"]; reflexivity
          | exists ("__class__" :: names); reflexivity
          | exists ["real"; "imag"]; reflexivity
          | exists ["start"; "stop"; "step"]; reflexivity ].
Qed.

(** Outside the three classes that read more of the object while they
    are built, construction cannot raise once [dir] has listed names. *)
Lemma new_inspector_total (C : InspectorClass) (o : pyobj) (names : list string) :
  C <> ClassInspector -> C <> DictionaryInspector -> C <> SequenceInspector ->
  py_dir o = Ok (map of_str names) ->
  exists self, new_inspector C o = Ok self.
Proof.
  intros H1 H2 H3 Hd. rewrite new_inspector_eq.
  destruct (namedParts_strings C o names H1 Hd) as (named & ->). simpl.
  rewrite sorted_strs. simpl.
  destruct C; try congruence; simpl; eexists; reflexivity.
Qed.

Lemma assoc_In {A : Type} (k : string) (v : A) (d : list (string * A)) :
  assoc k d = Some v -> In v (map snd d).
Proof.
  induction d as [|[k' v'] d IH]; simpl; [discriminate|].
  destruct (String.eqb k k').
  - intros [= ->]. left. reflexivity.
  - intros H. right. apply IH, H.
Qed.

(** X2. For an object with an ASCII type name whose [dir] listing is a
    list of names, [inspectorFor] can raise only while it builds a
    [ClassInspector], a [DictionaryInspector] or a [SequenceInspector]:
    when its key is absent, or registered to any other class, it returns
    an inspector. *)
Theorem inspectorFor_raises_only_in_three_classes (o : pyobj)
    (names : list string) (e : exn) :
  ascii_only (type_name o) = true ->
  py_dir o = Ok (map of_str names) ->
  snd (inspectorFor o) = Raise e ->
  In (assoc (capitalize (type_name o) ++ "Type") _InspectorMap)
     [Some "ClassInspector"; Some "DictionaryInspector";
      Some "SequenceInspector"].
Proof.
  intros _ Hd. unfold inspectorFor.
  destruct (assoc (capitalize (type_name o) ++ "Type") _InspectorMap)
    as [name|] eqn:Ea.
  - pose proof (assoc_In _ _ _ Ea) as Hin. simpl in Hin.
    intros Hr.
    repeat (destruct Hin as [<-|Hin];
            [ first [ left; reflexivity
                    | right; left; reflexivity
                    | right; right; left; reflexivity
                    | exfalso; simpl in Hr;
                      match type of Hr with
                      | new_inspector ?C o = _ =>
                          destruct (new_inspector_total C o names) as (self & Hs);
                          [discriminate|discriminate|discriminate|exact Hd|];
                          rewrite Hs in Hr; discriminate
                      end ]
            | ]).
    destruct Hin.
  - simpl. rewrite (new_base_inspector_of_names o names Hd). discriminate.
Qed.

Lemma length_sort_str (l : list string) :
  List.length (sort_str l) = List.length l.
Proof. symmetry. apply Permutation_length, sort_str_perm. Qed.

Lemma map_str_of_str (l : list string) : map py_str (map of_str l) = l.
Proof.
  induction l as [|x l IH]; simpl; [reflexivity|].
  rewrite str_of_str, IH. reflexivity.
Qed.

Lemma nth_error_py_range (len k : nat) :
  (k < len)%nat -> nth_error (py_range len) k = Some (Z.of_nat k).
Proof.
  intros Hk. unfold py_range.
  rewrite nth_error_map, nth_error_seq.
  apply Nat.ltb_lt in Hk. rewrite Hk. reflexivity.
Qed.

(** X3. For an object whose [dir] listing is a list of [m] names and
    whose length is [len], the [SequenceInspector] is built, and the part
    numbered [m + 1 + k] is the index [k], for every [k < len]: its name
    in the list is the decimal form of [k] and [partNumber] resolves it to
    [o[k]] (with whatever that indexing returns or raises). *)
Theorem sequence_index_parts_resolve (o : pyobj) (names : list string)
    (len k : nat) :
  py_dir o = Ok (map of_str names) ->
  py_len o = Ok len ->
  (k < len)%nat ->
  exists self,
    new_inspector SequenceInspector o = Ok self /\
    List.length (_partsList self) = (List.length names + len)%nat /\
    nth_error (partNames self) (S (List.length names + k)) =
      Some (str_of_int (Z.of_nat k)) /\
    partNumber (Z.of_nat (List.length names) + 1 + Z.of_nat k) self =
      (set_lastPartNumber (Z.of_nat (List.length names) + 1 + Z.of_nat k) self,
       py_getitem o (of_int (Z.of_nat k))).
Proof.
  intros Hd Hlen Hk. rewrite new_inspector_eq. unfold namedParts. simpl.
  rewrite Hd. simpl. rewrite sorted_strs, Hlen. simpl.
  eexists. split; [reflexivity|].
  set (reflective := map of_str (sort_str names)).
  assert (Hr : List.length reflective = List.length names)
    by (unfold reflective; rewrite length_map; apply length_sort_str).
  assert (Hnth : nth_error (reflective ++ map of_int (py_range len))
                   (List.length names + k) = Some (of_int (Z.of_nat k))).
  { rewrite nth_error_app2 by lia.
    replace (List.length names + k - List.length reflective)%nat with k by lia.
    rewrite nth_error_map, nth_error_py_range by exact Hk. reflexivity. }
  split; [|split].
  - simpl. rewrite length_app, Hr, length_map. unfold py_range.
    rewrite length_map, length_seq. reflexivity.
  - unfold partNames. simpl. rewrite nth_error_map, Hnth. simpl.
    rewrite str_of_int_obj. reflexivity.
  - rewrite partNumber_eq. simpl.
    assert (E : (Z.of_nat (List.length names) + 1 + Z.of_nat k =? 0) = false)
      by (apply Z.eqb_neq; lia).
    rewrite E.
    destruct (py_index_in_range (reflective ++ map of_int (py_range len))
                (Z.of_nat (List.length names) + 1 + Z.of_nat k - 1))
      as (entry & He & Hi).
    { rewrite length_app, Hr, length_map. unfold py_range.
      rewrite length_map, length_seq. lia. }
    replace (Z.to_nat (Z.of_nat (List.length names) + 1 + Z.of_nat k - 1))
      with (List.length names + k)%nat in He by lia.
    rewrite Hnth in He. injection He as <-.
    rewrite Hi. simpl. unfold resolve_entry. simpl.
    rewrite is_int_of_int. reflexivity.
Qed.

(** X5. A [ModuleInspector], a [ComplexInspector] and a [SliceInspector]
    are built without reading the object, so for any object at all; their
    parts are the class's names in sorted order, which for the last two is
    not the order [namedParts] lists them in. *)
Theorem fixed_parts_in_sorted_order (o : pyobj) :
  new_inspector ModuleInspector o =
    Ok (mkInspector ModuleInspector o 0 [of_str "__dict__"] ["up"; "__dict__"]) /\
  new_inspector ComplexInspector o =
    Ok (mkInspector ComplexInspector o 0 [of_str "imag"; of_str "real"]
          ["up"; "imag"; "real"]) /\
  new_inspector SliceInspector o =
    Ok (mkInspector SliceInspector o 0
          [of_str "start"; of_str "step"; of_str "stop"]
          ["up"; "start"; "step"; "stop"]).
Proof.
  rewrite !new_inspector_eq. simpl.
  change [of_str "__dict__"] with (map of_str ["__dict__"]).
  change [of_str "real"; of_str "imag"] with (map of_str ["real"; "imag"]).
  change [of_str "start"; of_str "stop"; of_str "step"]
    with (map of_str ["start"; "stop"; "step"]).
  rewrite !sorted_strs. simpl. rewrite !str_of_str. repeat split.
Qed.

(** X6. [selectedPart] right after [partNumber(n)] resolves the same part
    again: it returns what [partNumber(n)] returned, or raises what it
    raised, and leaves the inspector as [partNumber(n)] left it. *)
Theorem selectedPart_repeats_partNumber (self : InspectorObj) (n : Z) :
  selectedPart (fst (partNumber n self)) = partNumber n self.
Proof.
  unfold selectedPart, bind, get, getLastPartNumber.
  rewrite partNumber_state. simpl.
  rewrite !partNumber_eq. reflexivity.
Qed.

(** X7. An index beyond the parts, in either direction, makes
    [partNumber] raise [IndexError], after the index has been recorded. *)
Theorem partNumber_out_of_range (self : InspectorObj) (n : Z) :
  n <> 0 ->
  Z.of_nat (List.length (_partsList self)) < n \/
  n < 1 - Z.of_nat (List.length (_partsList self)) ->
  partNumber n self = (set_lastPartNumber n self, Raise IndexError).
Proof.
  intros Hn Hr. rewrite partNumber_eq.
  assert (E : (n =? 0) = false) by (apply Z.eqb_neq; exact Hn).
  rewrite E. f_equal. unfold py_index.
  destruct (n - 1 <? 0) eqn:Eneg.
  - apply Z.ltb_lt in Eneg.
    assert (Hlo : (0 <=? Z.of_nat (List.length (_partsList self)) + (n - 1)) = false)
      by (apply Z.leb_gt; lia).
    rewrite Hlo. reflexivity.
  - apply Z.ltb_ge in Eneg.
    assert (Hhi : (n - 1 <? Z.of_nat (List.length (_partsList self))) = false)
      by (apply Z.ltb_ge; lia).
    rewrite Hhi, andb_false_r. reflexivity.
Qed.

(** X8. A negative index within the length of the parts does not fail:
    as list indexing counts from the end, [partNumber(n)] for
    [1 - len <= n < 0] resolves the entry [len + n - 1]. *)
Theorem partNumber_negative_index_wraps (self : InspectorObj) (n : Z) :
  1 - Z.of_nat (List.length (_partsList self)) <= n < 0 ->
  exists entry,
    nth_error (_partsList self)
      (Z.to_nat (Z.of_nat (List.length (_partsList self)) + n - 1)) = Some entry /\
    partNumber n self = (set_lastPartNumber n self, resolve_entry self entry).
Proof.
  intros Hn. rewrite partNumber_eq.
  assert (E : (n =? 0) = false) by (apply Z.eqb_neq; lia).
  rewrite E. unfold py_index.
  assert (Eneg : (n - 1 <? 0) = true) by (apply Z.ltb_lt; lia).
  rewrite Eneg.
  assert (Hin : ((0 <=? Z.of_nat (List.length (_partsList self)) + (n - 1)) &&
                 (Z.of_nat (List.length (_partsList self)) + (n - 1) <?
                  Z.of_nat (List.length (_partsList self))))%bool = true).
  { apply andb_true_iff. split; [apply Z.leb_le|apply Z.ltb_lt]; lia. }
  rewrite Hin.
  replace (Z.of_nat (List.length (_partsList self)) + (n - 1))
    with (Z.of_nat (List.length (_partsList self)) + n - 1) by lia.
  destruct (nth_error (_partsList self)
              (Z.to_nat (Z.of_nat (List.length (_partsList self)) + n - 1)))
    as [entry|] eqn:En.
  - exists entry. split; reflexivity.
  - apply nth_error_None in En. lia.
Qed.

(** X16. For an object with an ASCII type name whose derived key the
    registry lacks and whose [dir] listing is a list of names,
    [inspectorFor] does not raise: it prints one line naming the key and
    returns a base [Inspector] on the object, whose parts are the sorted
    listing and whose names are ['up'] followed by that listing. *)
Theorem inspectorFor_falls_back_to_base (o : pyobj) (names : list string) :
  ascii_only (type_name o) = true ->
  py_dir o = Ok (map of_str names) ->
  assoc (capitalize (type_name o) ++ "Type") _InspectorMap = None ->
  inspectorFor o =
    (["Can't find an inspector for " ++ capitalize (type_name o) ++ "Type"],
     Ok (mkInspector Inspector o 0 (map of_str (sort_str names))
           ("up" :: sort_str names))).
Proof.
  intros _ Hd Ha. unfold inspectorFor. rewrite Ha. simpl.
  rewrite (new_base_inspector_of_names o names Hd), map_str_of_str.
  reflexivity.
Qed.

End MoreInspectorFacts.

(** ** Further properties of the windows *)

Section MoreWindowFacts.
Context {R : PyRuntime}.

Lemma inspectorFor_built (o : pyobj) (j : InspectorObj) :
  snd (inspectorFor o) = Ok j -> exists C, new_inspector C o = Ok j.
Proof.
  unfold inspectorFor.
  destruct (assoc _ _InspectorMap) as [name|];
    destruct (globals _) as [C|]; simpl; try discriminate;
    intros H; exists C; exact H.
Qed.

Lemma new_inspector_fresh (C : InspectorClass) (o : pyobj) (j : InspectorObj) :
  new_inspector C o = Ok j ->
  object j = o /\ lastPartNumber j = 0 /\
  exists names, partNames j = "up" :: names.
Proof.
  rewrite new_inspector_eq.
  destruct (namedParts _); simpl; [|discriminate].
  destruct (py_sorted _); simpl; [|discriminate].
  destruct (appended_parts C o); simpl; [|discriminate].
  intros [= <-]. repeat split. eexists. reflexivity.
Qed.

Lemma select_set_in_range (size : nat) (n : Z) :
  0 <= n < Z.of_nat size -> select_set size n [] = [n].
Proof.
  intros Hn. unfold select_set.
  assert (E : ((0 <=? n) && (n <? Z.of_nat size))%bool = true).
  { apply andb_true_iff. split; [apply Z.leb_le|apply Z.ltb_lt]; lia. }
  rewrite E. reflexivity.
Qed.

(** A refresh of a window whose top inspector remembers an index of its
    list: that index is selected, the stack is untouched, and a second
    refresh changes nothing. *)
Lemma refresh_stable (w w' : Window) (i : InspectorObj) :
  topInspector w = Ok i ->
  0 <= lastPartNumber i < Z.of_nat (List.length (partNames i)) ->
  update w = (w', Ok tt) ->
  inspectors w' = inspectors w /\
  curselection w' = [lastPartNumber i] /\
  listItems w' = partNames i /\
  commandText w' = commandText w /\
  update w' = (w', Ok tt).
Proof.
  intros Ht Hr Hup.
  destruct (update_ok_inv _ _ Hup) as (i0 & t & s & text & Ht0 & _ & _ & Hw).
  rewrite Ht in Ht0. injection Ht0 as <-.
  cbv zeta in Hw. rewrite (select_set_in_range _ _ Hr) in Hw.
  destruct Hw as (_ & Hw).
  rewrite set_lastPartNumber_same, <- (topInspector_inv _ _ Ht) in Hw.
  assert (Hi : inspectors w' = inspectors w) by (rewrite Hw; reflexivity).
  assert (Hc : commandText w' = commandText w) by (rewrite Hw; reflexivity).
  split; [exact Hi|]. split; [rewrite Hw; reflexivity|].
  split; [rewrite Hw; reflexivity|]. split; [exact Hc|].
  apply (update_ok_ext w); assumption.
Qed.

(** X9. Refreshing is idempotent: when the top inspector's remembered
    index is an index of its list and a refresh succeeds, the window it
    leaves has that index selected and the same stack, and refreshing it
    again changes nothing. *)
Theorem update_idempotent (w w' : Window) (i : InspectorObj) :
  topInspector w = Ok i ->
  0 <= lastPartNumber i < Z.of_nat (List.length (partNames i)) ->
  update w = (w', Ok tt) ->
  update w' = (w', Ok tt) /\
  inspectors w' = inspectors w /\
  selectedIndex w' = Some (lastPartNumber i).
Proof.
  intros Ht Hr Hup.
  destruct (refresh_stable _ _ _ Ht Hr Hup) as (Hi & Hc & _ & _ & Hu).
  split; [exact Hu|]. split; [exact Hi|].
  unfold selectedIndex. rewrite Hc. reflexivity.
Qed.

(** X10. The window [inspect(o)] returns holds the one inspector
    [inspectorFor(o)] built, shows its part names with ['up'] selected,
    displays its state (a refresh changes nothing), and cannot be popped. *)
Theorem inspect_opens_displayed_window (o : pyobj) (out : list string)
    (w : Window) :
  inspect o = (out, Ok w) ->
  exists i,
    inspectorFor o = (out, Ok i) /\
    inspectors w = [i] /\
    curselection w = [0] /\
    listItems w = partNames i /\
    update w = (w, Ok tt) /\
    pop w = (w, Ok tt).
Proof.
  unfold inspect.
  destruct (inspectorFor o) as [out' [i|e]] eqn:Ef; [|intros [= _ ?]; discriminate].
  destruct (open (InspectorWindow_new i)) as [nw [u|e]] eqn:Eo;
    [|intros [= _ ?]; discriminate].
  intros [= <- <-]. exists i. split; [reflexivity|].
  destruct u.
  assert (Hb : snd (inspectorFor o) = Ok i) by (rewrite Ef; reflexivity).
  destruct (inspectorFor_built _ _ Hb) as (C & HC).
  destruct (new_inspector_fresh _ _ _ HC) as (_ & Hlp & names & Hn).
  destruct (refresh_stable (InspectorWindow_new i) nw i) as (Hi & Hc & Hl & _ & Hu).
  - reflexivity.
  - rewrite Hlp, Hn. simpl. lia.
  - exact Eo.
  - split; [exact Hi|]. split; [rewrite Hc, Hlp; reflexivity|].
    split; [exact Hl|]. split; [exact Hu|].
    rewrite pop_eq, Hi. reflexivity.
Qed.

(** X11. With nothing selected in the list, Dive, Inspect and the
    activation of the list entry all leave the window exactly as it is and
    raise nothing. *)
Theorem nothing_selected_is_noop (w : Window) :
  selectedIndex w = None ->
  dive w = (w, Ok tt) /\
  InspectorWindow_inspect w = (w, Ok None) /\
  popOrDive w = (w, Ok tt).
Proof.
  intros Hs.
  assert (Hi : inspectorForSelectedPart w = (w, Ok None))
    by (rewrite inspectorForSelectedPart_eq, Hs; reflexivity).
  assert (Hd : dive w = (w, Ok tt)) by (rewrite dive_eq, Hi; reflexivity).
  split; [exact Hd|]. split.
  - unfold InspectorWindow_inspect, bind. rewrite Hi. reflexivity.
  - unfold popOrDive, bind, get. rewrite Hs. exact Hd.
Qed.

(** X12. A Dive that succeeds with index [n] selected has resolved part
    [n] of the top inspector and pushed the inspector [inspectorFor]
    built for it: the stack is the old one, with [n] recorded on the old
    top, and that one new inspector above it; the list shows the new
    inspector's part names with ['up'] selected, and the window displays
    its state (a refresh changes nothing). *)
Theorem dive_pushes_inspector_of_selected_part (w w1 : Window) (n : Z) :
  selectedIndex w = Some n ->
  dive w = (w1, Ok tt) ->
  exists i part j,
    topInspector w = Ok i /\
    snd (partNumber n i) = Ok part /\
    snd (inspectorFor part) = Ok j /\
    object j = part /\
    inspectors w1 =
      (removelast (inspectors w) ++ [set_lastPartNumber n i; j])%list /\
    curselection w1 = [0] /\
    listItems w1 = partNames j /\
    commandText w1 = commandText w /\
    update w1 = (w1, Ok tt).
Proof.
  intros Hs Hd. rewrite dive_eq, inspectorForSelectedPart_eq, Hs in Hd.
  destruct (topInspector w) as [i|e]; [|discriminate].
  destruct (snd (partNumber n i)) as [part|e] eqn:Ep; [|discriminate].
  simpl in Hd.
  destruct (snd (inspectorFor part)) as [j|e] eqn:Ej; [|discriminate].
  simpl in Hd.
  destruct (inspectorFor_built _ _ Ej) as (C & HC).
  destruct (new_inspector_fresh _ _ _ HC) as (Ho & Hlp & names & Hn).
  match type of Hd with update ?v = _ =>
    destruct (refresh_stable v w1 j) as (Hi & Hc & Hl & Hm & Hu)
  end.
  - apply topInspector_last with
      (l0 := (removelast (inspectors w) ++ [set_lastPartNumber n i])%list).
    reflexivity.
  - rewrite Hlp, Hn. simpl. lia.
  - exact Hd.
  - exists i, part, j. repeat (split; [first [reflexivity | assumption]|]).
    split.
    + rewrite Hi. simpl. rewrite <- app_assoc. reflexivity.
    + split; [rewrite Hc, Hlp; reflexivity|]. repeat split; assumption.
Qed.

Lemma title_set_lastPartNumber (n : Z) (i : InspectorObj) :
  title (set_lastPartNumber n i) = title i.
Proof. reflexivity. Qed.

Lemma stringForPartNumber_result (n m : Z) (i : InspectorObj) :
  snd (stringForPartNumber n (set_lastPartNumber m i)) =
    snd (stringForPartNumber n i).
Proof.
  unfold stringForPartNumber, bind. rewrite !partNumber_eq. reflexivity.
Qed.

(** X17. A selection change records the selected index (0 when nothing
    is selected) on the top inspector and shows that part's text; it
    changes nothing else: not the inspectors below the top nor the depth,
    not the title, the list, the selection or the command text; and when
    resolving the part raises, the value text too is left as it was. *)
Theorem listSelectionChanged_records_selection (w : Window) (i : InspectorObj) :
  topInspector w = Ok i ->
  let n := match selectedIndex w with
           | Some n => n
           | None => 0
           end in
  let w' := fst (listSelectionChanged w) in
  inspectors w' = (removelast (inspectors w) ++ [set_lastPartNumber n i])%list /\
  top_title w' = top_title w /\ listItems w' = listItems w /\
  curselection w' = curselection w /\ commandText w' = commandText w /\
  match snd (listSelectionChanged w) with
  | Ok _ => snd (stringForPartNumber n i) = Ok (valueText w')
  | Raise e => snd (stringForPartNumber n i) = Raise e /\ valueText w' = valueText w
  end.
Proof.
  intros Ht. cbv zeta. rewrite listSelectionChanged_eq, Ht. cbv zeta.
  destruct (snd (stringForPartNumber _ i)); simpl; repeat split.
Qed.

(** X18. Selecting an entry of the list keeps a displayed window
    displayed: from a window a refresh would not change, after the
    selection moves to an index of the list and the selection callback
    returns, a refresh still changes nothing, and the selected index is
    the one the top inspector remembers. *)
Theorem selection_change_keeps_window_displayed (w w' : Window) (n : Z) :
  update w = (w, Ok tt) ->
  0 <= n < Z.of_nat (List.length (listItems w)) ->
  listSelectionChanged (set_listbox (listItems w) [n] w) = (w', Ok tt) ->
  update w' = (w', Ok tt) /\
  selectedIndex w' = Some n /\
  (exists i, topInspector w' = Ok i /\ lastPartNumber i = n).
Proof.
  intros Hup Hn Hsel.
  destruct (update_ok_inv _ _ Hup) as (i & t & s & text & Ht & Hti & Hs & Hw).
  cbv zeta in Hw. destruct Hw as (_ & Hw).
  assert (Hitems : listItems w = partNames i) by (rewrite Hw at 1; reflexivity).
  assert (Htitle : top_title w = "Inspecting: " ++ s) by (rewrite Hw at 1; reflexivity).
  rewrite listSelectionChanged_eq in Hsel. cbv zeta in Hsel.
  assert (Ht' : topInspector (set_listbox (listItems w) [n] w) = Ok i) by exact Ht.
  rewrite Ht' in Hsel. simpl in Hsel.
  destruct (snd (stringForPartNumber n i)) as [text'|e] eqn:Ex; [|discriminate].
  injection Hsel as <-.
  assert (Htop : forall a b c d e0,
            topInspector
              (mkWindow (removelast (inspectors w) ++ [set_lastPartNumber n i])
                 a b c d e0) = Ok (set_lastPartNumber n i)).
  { intros. apply topInspector_last with (l0 := removelast (inspectors w)).
    reflexivity. }
  split; [|split].
  - rewrite update_eq. unfold set_valueText, set_inspectors, set_listbox.
    cbn [inspectors top_title listItems curselection valueText commandText].
    rewrite Htop, title_set_lastPartNumber, Hti, Hs.
    unfold refreshed.
    cbn [inspectors top_title listItems curselection valueText commandText
         partNames _partNames lastPartNumber set_lastPartNumber].
    rewrite Hitems in Hn. unfold partNames in Hn.
    rewrite (select_set_in_range _ _ Hn).
    change (mkInspector (cls i) (object i) n (_partsList i) (_partNames i))
      with (set_lastPartNumber n i).
    rewrite stringForPartNumber_result, Ex, removelast_last.
    rewrite Htitle, Hitems. reflexivity.
  - reflexivity.
  - exists (set_lastPartNumber n i). split; [apply Htop|reflexivity].
Qed.

Lemma evalCommand_stack (w : Window) :
  inspectors (fst (evalCommand w)) = inspectors w.
Proof.
  rewrite evalCommand_eq.
  destruct (after_last_prompt (commandText w) None) as [rest|]; [|reflexivity].
  destruct (String.eqb (to_lineend rest) EmptyString); [reflexivity|].
  destruct (topInspector w) as [i|e]; [|reflexivity].
  destruct (snd (selectedPart i)) as [this|e]; [|reflexivity].
  destruct (py_eval _ _); reflexivity.
Qed.

(** X13. Whatever its outcome, [evalCommand] leaves the navigation as it
    was: the stack of inspectors with their last-selected indices, the
    title, the list with its selection and the value text are unchanged;
    the command text is the only thing it may change. *)
Theorem evalCommand_leaves_navigation_untouched (w : Window) :
  inspectors (fst (evalCommand w)) = inspectors w /\
  top_title (fst (evalCommand w)) = top_title w /\
  listItems (fst (evalCommand w)) = listItems w /\
  curselection (fst (evalCommand w)) = curselection w /\
  valueText (fst (evalCommand w)) = valueText w.
Proof.
  rewrite evalCommand_eq.
  destruct (after_last_prompt (commandText w) None) as [rest|]; [|repeat split].
  destruct (String.eqb (to_lineend rest) EmptyString); [repeat split|].
  destruct (topInspector w) as [i|e]; [|repeat split].
  destruct (snd (selectedPart i)) as [this|e]; [|repeat split].
  destruct (py_eval _ _) as [result|e]; repeat split.
Qed.

(** *** Events

    The callbacks [createListWidget], [createTextWidgets] and
    [createMenus] bind, by widget and event (the right-button popup and
    the help menu, which belong to the host framework, are left out). *)
Inductive Binding : Type :=
| List_ButtonPress_1
| List_ButtonRelease_1
| List_Double_Button_1
| List_KeyRelease_Up
| List_KeyRelease_Down
| List_KeyRelease_Left
| List_KeyRelease_Right
| List_Return
| Command_KeyRelease_Return
| Menu_Pop
| Menu_Dive
| Menu_Inspect.

Definition callback (b : Binding) : ST Window unit :=
  match b with
  | List_ButtonPress_1 => ret tt
  | List_ButtonRelease_1 => listSelectionChanged
  | List_Double_Button_1 => popOrDive
  | List_KeyRelease_Up => listSelectionChanged
  | List_KeyRelease_Down => listSelectionChanged
  | List_KeyRelease_Left => pop
  | List_KeyRelease_Right => dive
  | List_Return => popOrDive
  | Command_KeyRelease_Return => evalCommand
  | Menu_Pop => pop
  | Menu_Dive => dive
  | Menu_Inspect => bind InspectorWindow_inspect (fun _ => ret tt)
  end.

(** What happens to an open window: Tk fires a bound callback (an
    exception it raises is reported and dropped, the window stays as the
    callback left it), or the widgets' own bindings change the selection
    of the list or the command text. *)
Inductive Event : Type :=
| Fire (b : Binding)
| SelectionSet (sel : list Z)
| CommandEdited (text : string).

Definition step (w : Window) (ev : Event) : Window :=
  match ev with
  | Fire b => fst (callback b w)
  | SelectionSet sel => set_listbox (listItems w) sel w
  | CommandEdited text => set_commandText text w
  end.

Definition run (events : list Event) (w : Window) : Window :=
  fold_left step events w.

(** How one event may change the stack: not at all, by one inspector
    pushed, or by the top one removed from a stack of two or more. *)
Definition stack_step {A : Type} (l l' : list A) : Prop :=
  l' = l \/ (exists x, l' = (l ++ [x])%list) \/
  ((1 < List.length l)%nat /\ l' = removelast l).

Lemma map_removelast {A B : Type} (f : A -> B) (l : list A) :
  map f (removelast l) = removelast (map f l).
Proof.
  induction l as [|a l IH]; [reflexivity|].
  destruct l as [|b l]; [reflexivity|].
  simpl in *. rewrite IH. reflexivity.
Qed.

Lemma pop_stack_step (w : Window) :
  stack_step (map skeleton (inspectors w))
    (map skeleton (inspectors (fst (pop w)))).
Proof.
  rewrite pop_stack.
  destruct (1 <? List.length (inspectors w))%nat eqn:E; [|left; reflexivity].
  right. right. apply Nat.ltb_lt in E. rewrite length_map.
  split; [exact E|apply map_removelast].
Qed.

Lemma dive_stack_step (w : Window) :
  stack_step (map skeleton (inspectors w))
    (map skeleton (inspectors (fst (dive w)))).
Proof.
  destruct (dive_stack w) as [H|(j & H)].
  - left. exact H.
  - right. left. exists (skeleton j). exact H.
Qed.

Lemma callback_stack_step (b : Binding) (w : Window) :
  stack_step (map skeleton (inspectors w))
    (map skeleton (inspectors (fst (callback b w)))).
Proof.
  destruct b; simpl;
    try apply pop_stack_step; try apply dive_stack_step;
    try (left; apply listSelectionChanged_frame).
  - left. reflexivity.
  - unfold popOrDive, bind, get.
    destruct (selectedIndex w) as [[|p|p]|];
      first [apply pop_stack_step | apply dive_stack_step].
  - unfold popOrDive, bind, get.
    destruct (selectedIndex w) as [[|p|p]|];
      first [apply pop_stack_step | apply dive_stack_step].
  - left. f_equal. apply evalCommand_stack.
  - left.
    assert (E : fst (bind InspectorWindow_inspect (fun _ => ret tt) w) =
                fst (InspectorWindow_inspect w)).
    { unfold bind, ret. destruct (InspectorWindow_inspect w) as [v [a|e]];
        reflexivity. }
    rewrite E, inspect_state. apply inspectorForSelectedPart_frame.
Qed.

Lemma step_stack_step (ev : Event) (w : Window) :
  stack_step (map skeleton (inspectors w))
    (map skeleton (inspectors (step w ev))).
Proof.
  destruct ev as [b|sel|text]; simpl.
  - apply callback_stack_step.
  - left. reflexivity.
  - left. reflexivity.
Qed.

Lemma stack_step_root {A : Type} (l l' : list A) :
  stack_step l l' -> l <> [] ->
  l' <> [] /\ hd_error l' = hd_error l /\
  (List.length l' <= S (List.length l))%nat.
Proof.
  intros [->|[(x & ->)|(Hlen & ->)]] Hl.
  - repeat split; [exact Hl|lia].
  - destruct l as [|a l]; [congruence|].
    repeat split; [discriminate|rewrite length_app; simpl; lia].
  - destruct l as [|a [|b l]]; simpl in Hlen; try lia.
    repeat split; [discriminate|].
    rewrite removelast_firstn_len, length_firstn. lia.
Qed.

(** X15. Whatever the events an open window receives (callbacks fired by
    the list, the keys and the menus, in any order, raising or not, with
    the selection and the command text changed at will in between), its
    stack never becomes empty, its bottom inspector stays the one it had,
    and its depth grows by at most one per event. *)
Theorem events_keep_stack_rooted (events : list Event) (w : Window) :
  inspectors w <> [] ->
  inspectors (run events w) <> [] /\
  hd_error (map skeleton (inspectors (run events w))) =
    hd_error (map skeleton (inspectors w)) /\
  (List.length (inspectors (run events w)) <=
   List.length (inspectors w) + List.length events)%nat.
Proof.
  revert w. induction events as [|ev events IH]; intros w Hw.
  - repeat split; [exact Hw|simpl; lia].
  - assert (Hm : map skeleton (inspectors w) <> [])
      by (intros E; apply map_eq_nil in E; contradiction).
    destruct (stack_step_root _ _ (step_stack_step ev w) Hm) as (Hn & Hh & Hl).
    assert (Hw' : inspectors (step w ev) <> [])
      by (intros E; rewrite E in Hn; apply Hn; reflexivity).
    destruct (IH (step w ev) Hw') as (H1 & H2 & H3).
    rewrite !length_map in Hl.
    change (run (ev :: events) w) with (run events (step w ev)).
    repeat split; [exact H1|rewrite H2; exact Hh|simpl; lia].
Qed.

End MoreWindowFacts.

(** ** More examples in the concrete runtime *)

Module MoreExamples.
Import Demo.
Import Examples.

(** [foo_window] with nothing selected in its list. *)
Definition foo_window_unselected : Window :=
  set_listbox (listItems foo_window) [] foo_window.

(** The user selects [y], releases the button, dives with the right
    arrow, and comes back with Return on ['up']. *)
Definition there_and_back : list Event :=
  [SelectionSet [2]; Fire List_ButtonRelease_1; Fire List_KeyRelease_Right;
   Fire List_Return].

Example run_there_and_back : run there_and_back foo_window = foo_window_y.
Proof. reflexivity. Qed.

Lemma raises_only_in_three_classes_witness :
  ascii_only (type_name mixed_keys) = true /\
  py_dir mixed_keys = Ok (map of_str ["__class__"]) /\
  snd (inspectorFor mixed_keys) = Raise TypeError /\
  In (assoc (capitalize (type_name mixed_keys) ++ "Type") _InspectorMap)
     [Some "ClassInspector"; Some "DictionaryInspector";
      Some "SequenceInspector"].
Proof.
  split; [reflexivity|]. split; [reflexivity|]. split; [reflexivity|].
  exact (inspectorFor_raises_only_in_three_classes (R := runtime)
           mixed_keys ["__class__"] TypeError eq_refl eq_refl eq_refl).
Defined.

Lemma sequence_index_parts_witness :
  py_dir seq3 = Ok (map of_str ["__class__"]) /\
  py_len seq3 = Ok 3%nat /\ (1 < 3)%nat /\
  exists self,
    new_inspector SequenceInspector seq3 = Ok self /\
    List.length (_partsList self) = (List.length ["__class__"] + 3)%nat /\
    nth_error (partNames self) (S (List.length ["__class__"] + 1)) =
      Some (str_of_int (Z.of_nat 1)) /\
    partNumber (Z.of_nat (List.length ["__class__"]) + 1 + Z.of_nat 1) self =
      (set_lastPartNumber (Z.of_nat (List.length ["__class__"]) + 1 + Z.of_nat 1) self,
       py_getitem seq3 (of_int (Z.of_nat 1))).
Proof.
  assert (Hk : (1 < 3)%nat) by lia.
  split; [reflexivity|]. split; [reflexivity|]. split; [exact Hk|].
  exact (sequence_index_parts_resolve (R := runtime) seq3 ["__class__"] 3 1
           eq_refl eq_refl Hk).
Defined.

Lemma out_of_range_witness :
  5 <> 0 /\
  (Z.of_nat (List.length (_partsList seq3_inspector)) < 5 \/
   5 < 1 - Z.of_nat (List.length (_partsList seq3_inspector))) /\
  partNumber 5 seq3_inspector =
    (set_lastPartNumber 5 seq3_inspector, Raise IndexError).
Proof.
  assert (H0 : 5 <> 0) by discriminate.
  assert (Hr : Z.of_nat (List.length (_partsList seq3_inspector)) < 5 \/
               5 < 1 - Z.of_nat (List.length (_partsList seq3_inspector)))
    by (left; simpl; lia).
  split; [exact H0|]. split; [exact Hr|].
  exact (partNumber_out_of_range (R := runtime) seq3_inspector 5 H0 Hr).
Defined.

Lemma negative_index_witness :
  1 - Z.of_nat (List.length (_partsList seq3_inspector)) <= -1 < 0 /\
  exists entry,
    nth_error (_partsList seq3_inspector)
      (Z.to_nat (Z.of_nat (List.length (_partsList seq3_inspector)) + -1 - 1)) =
      Some entry /\
    partNumber (-1) seq3_inspector =
      (set_lastPartNumber (-1) seq3_inspector, resolve_entry seq3_inspector entry).
Proof.
  assert (H : 1 - Z.of_nat (List.length (_partsList seq3_inspector)) <= -1 < 0)
    by (simpl; lia).
  split; [exact H|].
  exact (partNumber_negative_index_wraps (R := runtime) seq3_inspector (-1) H).
Defined.

Example negative_index_resolves_second_to_last :
  partNumber (-1) seq3_inspector =
    (set_lastPartNumber (-1) seq3_inspector, Ok (PInt 20)).
Proof. reflexivity. Qed.

Lemma update_idempotent_witness :
  topInspector foo_window_dived = Ok d_ab_inspector /\
  0 <= lastPartNumber d_ab_inspector <
    Z.of_nat (List.length (partNames d_ab_inspector)) /\
  update foo_window_dived = (foo_window_dived, Ok tt) /\
  update foo_window_dived = (foo_window_dived, Ok tt) /\
  inspectors foo_window_dived = inspectors foo_window_dived /\
  selectedIndex foo_window_dived = Some (lastPartNumber d_ab_inspector).
Proof.
  assert (Hr : 0 <= lastPartNumber d_ab_inspector <
               Z.of_nat (List.length (partNames d_ab_inspector)))
    by (simpl; lia).
  split; [reflexivity|]. split; [exact Hr|]. split; [reflexivity|].
  exact (update_idempotent (R := runtime) foo_window_dived foo_window_dived
           d_ab_inspector eq_refl Hr eq_refl).
Defined.

Lemma inspect_opens_witness :
  inspect foo = (["Can't find an inspector for FooType"], Ok foo_window) /\
  exists i,
    inspectorFor foo = (["Can't find an inspector for FooType"], Ok i) /\
    inspectors foo_window = [i] /\
    curselection foo_window = [0] /\
    listItems foo_window = partNames i /\
    update foo_window = (foo_window, Ok tt) /\
    pop foo_window = (foo_window, Ok tt).
Proof.
  split; [reflexivity|].
  exact (inspect_opens_displayed_window (R := runtime) foo
           ["Can't find an inspector for FooType"] foo_window eq_refl).
Defined.

Lemma nothing_selected_witness :
  selectedIndex foo_window_unselected = None /\
  dive foo_window_unselected = (foo_window_unselected, Ok tt) /\
  InspectorWindow_inspect foo_window_unselected =
    (foo_window_unselected, Ok None) /\
  popOrDive foo_window_unselected = (foo_window_unselected, Ok tt).
Proof.
  split; [reflexivity|].
  exact (nothing_selected_is_noop (R := runtime) foo_window_unselected eq_refl).
Defined.

Lemma dive_pushes_witness :
  selectedIndex foo_window_y = Some 2 /\
  dive foo_window_y = (foo_window_dived, Ok tt) /\
  exists i part j,
    topInspector foo_window_y = Ok i /\
    snd (partNumber 2 i) = Ok part /\
    snd (inspectorFor part) = Ok j /\
    object j = part /\
    inspectors foo_window_dived =
      (removelast (inspectors foo_window_y) ++ [set_lastPartNumber 2 i; j])%list /\
    curselection foo_window_dived = [0] /\
    listItems foo_window_dived = partNames j /\
    commandText foo_window_dived = commandText foo_window_y /\
    update foo_window_dived = (foo_window_dived, Ok tt).
Proof.
  split; [reflexivity|]. split; [reflexivity|].
  exact (dive_pushes_inspector_of_selected_part (R := runtime) foo_window_y
           foo_window_dived 2 eq_refl eq_refl).
Defined.

Lemma events_witness :
  inspectors foo_window <> [] /\
  inspectors (run there_and_back foo_window) <> [] /\
  hd_error (map skeleton (inspectors (run there_and_back foo_window))) =
    hd_error (map skeleton (inspectors foo_window)) /\
  (List.length (inspectors (run there_and_back foo_window)) <=
   List.length (inspectors foo_window) + List.length there_and_back)%nat.
Proof.
  assert (H : inspectors foo_window <> []) by discriminate.
  split; [exact H|].
  exact (events_keep_stack_rooted (R := runtime) there_and_back foo_window H).
Defined.

Lemma falls_back_witness :
  ascii_only (type_name foo) = true /\
  py_dir foo = Ok (map of_str ["x"; "y"]) /\
  assoc (capitalize (type_name foo) ++ "Type") _InspectorMap = None /\
  inspectorFor foo =
    (["Can't find an inspector for " ++ capitalize (type_name foo) ++ "Type"],
     Ok (mkInspector Inspector foo 0 (map of_str (sort_str ["x"; "y"]))
           ("up" :: sort_str ["x"; "y"]))).
Proof.
  split; [reflexivity|]. split; [reflexivity|]. split; [reflexivity|].
  exact (inspectorFor_falls_back_to_base (R := runtime) foo ["x"; "y"]
           eq_refl eq_refl eq_refl).
Defined.

Lemma records_selection_witness :
  topInspector foo_window_unselected = Ok foo_inspector /\
  inspectors (fst (listSelectionChanged foo_window_unselected)) =
    [set_lastPartNumber 0 foo_inspector] /\
  curselection (fst (listSelectionChanged foo_window_unselected)) = [].
Proof.
  split; [reflexivity|].
  pose proof (listSelectionChanged_records_selection (R := runtime)
                foo_window_unselected foo_inspector eq_refl) as H.
  cbv zeta in H. destruct H as (Hi & _ & _ & Hc & _).
  split; [exact Hi|exact Hc].
Defined.

Lemma selection_change_witness :
  update foo_window = (foo_window, Ok tt) /\
  0 <= 2 < Z.of_nat (List.length (listItems foo_window)) /\
  listSelectionChanged (set_listbox (listItems foo_window) [2] foo_window) =
    (foo_window_y, Ok tt) /\
  update foo_window_y = (foo_window_y, Ok tt) /\
  selectedIndex foo_window_y = Some 2 /\
  (exists i, topInspector foo_window_y = Ok i /\ lastPartNumber i = 2).
Proof.
  assert (Hn : 0 <= 2 < Z.of_nat (List.length (listItems foo_window)))
    by (simpl; lia).
  split; [reflexivity|]. split; [exact Hn|]. split; [reflexivity|].
  exact (selection_change_keeps_window_displayed (R := runtime) foo_window
           foo_window_y 2 eq_refl Hn eq_refl).
Defined.

End MoreExamples.
